(** * Function-call telemetry to MongoDB: the decorator and its logging handler

    A shallow embedding of [db_handlers/mongodb/decorator.py] and
    [db_handlers/mongodb/mongodb_handler.py].

    Python values are an inductive type; IEEE-754 doubles are [spec_float]
    at precision 53; a computation that may raise and that reads clocks,
    mutates the logger registry or writes to the database is a function
    from a [world] to an [outcome] and a new [world]. *)

From Stdlib Require Import ZArith String Ascii List DecimalString Lia.
From Stdlib Require Import Floats.SpecFloat.
From stdpp Require Import base option gmap strings list.

Local Open Scope string_scope.
Local Open Scope Z_scope.

(** ** Outcomes of Python calls *)

Inductive outcome (E A : Type) : Type :=
| Returned (a : A)
| Raised (e : E).
Arguments Returned {E A} a.
Arguments Raised {E A} e.

(** An exception instance: the method resolution order of its class (the
    class itself first) and what [str(e)] does, which for a class that
    overrides [__str__] may itself raise. *)
#[warnings="-register-all"]
Inductive pyexn : Type :=
| MkExn (exc_mro : list string) (exc_str : outcome pyexn string).

Definition exc_mro (e : pyexn) : list string :=
  match e with MkExn mro _ => mro end.

Definition exc_str (e : pyexn) : outcome pyexn string :=
  match e with MkExn _ s => s end.

(** [isinstance(e, cls)] *)
Definition exc_isinstance (e : pyexn) (cls : string) : bool :=
  bool_decide (cls ∈ exc_mro e).

Definition builtin_exn (cls : string) (msg : string) : pyexn :=
  MkExn [cls; "Exception"; "BaseException"] (Returned msg).

Definition ValueError := builtin_exn "ValueError".
Definition TypeError := builtin_exn "TypeError".
Definition OverflowError (msg : string) : pyexn :=
  MkExn ["OverflowError"; "ArithmeticError"; "Exception"; "BaseException"]
        (Returned msg).
Definition AttributeError := builtin_exn "AttributeError".
Definition KeyboardInterrupt : pyexn :=
  MkExn ["KeyboardInterrupt"; "BaseException"] (Returned EmptyString).
Definition SystemExit (code : string) : pyexn :=
  MkExn ["SystemExit"; "BaseException"] (Returned code).
(** pymongo's errors all derive from [PyMongoError(Exception)]. *)
Definition PyMongoError (msg : string) : pyexn :=
  MkExn ["PyMongoError"; "Exception"; "BaseException"] (Returned msg).

Definition strres : Type := outcome pyexn string.

(** ** Doubles *)

Module Double.

Definition prec : Z := 53.
Definition emax : Z := 1024.

Definition add : spec_float -> spec_float -> spec_float := SFadd prec emax.
Definition sub : spec_float -> spec_float -> spec_float := SFsub prec emax.
Definition mul : spec_float -> spec_float -> spec_float := SFmul prec emax.
Definition div : spec_float -> spec_float -> spec_float := SFdiv prec emax.
Definition ltb : spec_float -> spec_float -> bool := SFltb.
Definition leb : spec_float -> spec_float -> bool := SFleb.

(** The double nearest to an integer (ties to even); an infinity when the
    integer is out of range. *)
Definition of_Z (z : Z) : spec_float := binary_normalize prec emax z 0 false.

(** The double nearest to [n / d], for positive [n] and [d]. *)
Definition of_ratio (s : bool) (n d : positive) : spec_float :=
  div (S754_finite s n 0) (S754_finite false d 0).

Definition is_finite (x : spec_float) : bool :=
  match x with
  | S754_zero _ | S754_finite _ _ _ => true
  | _ => false
  end.

(** [0.0 <= x] as Python evaluates it: true of both zeros, false of nan. *)
Definition nonneg (x : spec_float) : bool := leb (S754_zero false) x.

Definition string_of_Z (z : Z) : string := NilZero.string_of_int (Z.to_int z).

Definition zeros (n : Z) : string := string_of_list_ascii (repeat "0"%char (Z.to_nat n)).

(** Number of decimal digits of a positive integer. *)
Definition ndigits10 (z : Z) : Z := Z.of_nat (String.length (string_of_Z z)).

Fixpoint strip_zeros_rev (l : list ascii) : list ascii :=
  match l with
  | "0"%char :: r => strip_zeros_rev r
  | _ => l
  end.

Definition strip_trailing_zeros (s : string) : string :=
  string_of_list_ascii (rev (strip_zeros_rev (rev (list_ascii_of_string s)))).

(** *** Shortest decimal that reads back as the same double

  The value [m * 2^e] and the two midpoints to its neighbours are
  integers over the common denominator [den]: [nv / den] for the value,
  [nhi / den] above and [nlo / den] below, where the lower gap is halved
  at a power of two. *)
Section Shortest.
Variables (m : positive) (e : Z).

Definition unit_num : Z := if 0 <=? e - 2 then 2 ^ (e - 2) else 1.
Definition den : Z := if 0 <=? e - 2 then 1 else 2 ^ (2 - e).
Definition below : Z :=
  if (Z.pos m =? 2 ^ (prec - 1)) && (3 - emax - prec <? e) then 1 else 2.
Definition nv : Z := 4 * Z.pos m * unit_num.
Definition nlo : Z := (4 * Z.pos m - below) * unit_num.
Definition nhi : Z := (4 * Z.pos m + 2) * unit_num.

(** [10^s] as a fraction. *)
Definition scale_num (s : Z) : Z := if 0 <=? s then 10 ^ s else 1.
Definition scale_den (s : Z) : Z := if 0 <=? s then 1 else 10 ^ (- s).

(** The decimal exponent [k] with [10^(k-1) <= v < 10^k]. *)
Definition decimal_exponent : Z :=
  let k0 :=
    if den <=? nv then ndigits10 (nv / den)
    else 1 - ndigits10 (den / nv) in
  if scale_num k0 * den <=? nv * scale_den k0 then k0 + 1
  else if nv * scale_den (k0 - 1) <? scale_num (k0 - 1) * den then k0 - 1
  else k0.

(** Does [c * 10^s] read back as the double?  The midpoints themselves
  do when the mantissa is even (ties go to even). *)
Definition reads_back (c s : Z) : bool :=
  let x := c * scale_num s * den in
  if Z.even (Z.pos m)
  then (nlo * scale_den s <=? x) && (x <=? nhi * scale_den s)
  else (nlo * scale_den s <? x) && (x <? nhi * scale_den s).

Definition distance (c s : Z) : Z :=
  Z.abs (c * scale_num s * den - nv * scale_den s).

(** The candidate with [n] digits, if one reads back: the nearer of the
  two [n]-digit decimals around the value. *)
Definition candidate (k n : Z) : option (Z * Z) :=
  let s := k - n in
  let lo := (nv * scale_den s) / (scale_num s * den) in
  let hi := lo + 1 in
  match reads_back lo s, reads_back hi s with
  | true, true =>
      if distance lo s <? distance hi s then Some (lo, s)
      else if distance hi s <? distance lo s then Some (hi, s)
      else Some (if Z.even lo then lo else hi, s)
  | true, false => Some (lo, s)
  | false, true => Some (hi, s)
  | false, false => None
  end.

(** Seventeen digits always read back, so the search stops by then. *)
Fixpoint shortest_from (fuel : nat) (k n : Z) : Z * Z :=
  match fuel with
  | O => ((nv * scale_den (k - n)) / (scale_num (k - n) * den), k - n)
  | S fuel' =>
      match candidate k n with
      | Some r => r
      | None => shortest_from fuel' k (n + 1)
      end
  end.

(** The digits (no trailing zero) and the position of the decimal point:
  the value is [0.digits * 10^decpt]. *)
Definition shortest_digits : string * Z :=
  let '(c, s) := shortest_from 17 decimal_exponent 1 in
  let ds := string_of_Z c in
  (strip_trailing_zeros ds, s + Z.of_nat (String.length ds)).
End Shortest.

(** [float_repr_style = 'short'], format code ['r']. *)
Definition format_short (digits : string) (decpt : Z) : string :=
  let len := Z.of_nat (String.length digits) in
  if (-4 <? decpt) && (decpt <=? 16) then
    if decpt <=? 0 then "0." ++ zeros (- decpt) ++ digits
    else if len <=? decpt then digits ++ zeros (decpt - len) ++ ".0"
    else substring 0 (Z.to_nat decpt) digits ++ "." ++
         substring (Z.to_nat decpt) (Z.to_nat (len - decpt)) digits
  else
    let x := decpt - 1 in
    let xs := string_of_Z (Z.abs x) in
    substring 0 1 digits ++
    (if 1 <? len then "." ++ substring 1 (Z.to_nat (len - 1)) digits else EmptyString) ++
    "e" ++ (if x <? 0 then "-" else "+") ++
    (if Z.abs x <? 10 then "0" ++ xs else xs).

(** [repr(x)] for a float [x]. *)
Definition repr (x : spec_float) : string :=
  match x with
  | S754_nan => "nan"
  | S754_infinity false => "inf"
  | S754_infinity true => "-inf"
  | S754_zero false => "0.0"
  | S754_zero true => "-0.0"
  | S754_finite s m e =>
      let '(ds, decpt) := shortest_digits m e in
      (if s then "-" else EmptyString) ++ format_short ds decpt
  end.

(** Nearest integer to [n / d], ties to even, for [0 <= n] and [0 < d]. *)
Definition round_half_even (n d : Z) : Z :=
  let q := n / d in
  let r := n mod d in
  match 2 * r ?= d with
  | Lt => q
  | Gt => q + 1
  | Eq => if Z.even q then q else q + 1
  end.

(** The exact value [m * 2^e] times [10^ndigits], as a fraction. *)
Definition scaled_num (m : positive) (e : Z) (ndigits : Z) : Z :=
  Z.pos m * 10 ^ ndigits * (if 0 <=? e then 2 ^ e else 1).
Definition scaled_den (e : Z) : Z := if 0 <=? e then 1 else 2 ^ (- e).

(** [round(x, ndigits)] for a float [x] and [0 <= ndigits]: the exact value
    is rounded to [ndigits] decimals, ties to even, and the decimal is
    read back as a double.  Zeros, infinities and nan are returned as
    they are, and a value that rounds to zero keeps its sign. *)
Definition round_ndigits (x : spec_float) (ndigits : Z) : spec_float :=
  match x with
  | S754_finite s m e =>
      match round_half_even (scaled_num m e ndigits) (scaled_den e) with
      | Z.pos n => of_ratio s n (Z.to_pos (10 ^ ndigits))
      | _ => S754_zero s
      end
  | _ => x
  end.

End Double.

(** ** Python values *)

Record datetime : Type := mk_datetime {
  dt_year : Z; dt_month : Z; dt_day : Z;
  dt_hour : Z; dt_minute : Z; dt_second : Z; dt_microsecond : Z
}.

(** The values the program handles.  [PyObject] is an instance of a
    user-defined class that defines [__repr__] and [__str__] and no other
    special method: it is known by its class name and by what [repr] and
    [str] do on it; either may raise.  An instance of a class with
    comparison or arithmetic methods of its own ([decimal.Decimal],
    [fractions.Fraction]) is not among these values. *)
#[warnings="-register-all"]
Inductive pyval : Type :=
| PyNone
| PyBool (b : bool)
| PyInt (z : Z)
| PyFloat (x : spec_float)
| PyStr (s : string)
| PyTuple (xs : list pyval)
| PyDict (kvs : list (string * pyval))
| PyDatetime (d : datetime)
| PyObject (cls : string) (obj_repr obj_str : strres).

Definition pydict : Type := list (string * pyval).

(** The name of the type of [v] as error messages give it. *)
Definition type_name (v : pyval) : string :=
  match v with
  | PyNone => "NoneType"
  | PyBool _ => "bool"
  | PyInt _ => "int"
  | PyFloat _ => "float"
  | PyStr _ => "str"
  | PyTuple _ => "tuple"
  | PyDict _ => "dict"
  | PyDatetime _ => "datetime.datetime"
  | PyObject cls _ _ => cls
  end.

(** *** Dictionaries keep insertion order; a key is bound once. *)

Fixpoint dict_get (k : string) (d : pydict) : option pyval :=
  match d with
  | [] => None
  | (k', v) :: r => if String.eqb k k' then Some v else dict_get k r
  end.

(** [d[k] = v] *)
Fixpoint dict_set (k : string) (v : pyval) (d : pydict) : pydict :=
  match d with
  | [] => [(k, v)]
  | (k', v') :: r =>
      if String.eqb k k' then (k', v) :: r else (k', v') :: dict_set k v r
  end.

(** [d.update(other)] *)
Definition dict_update (d other : pydict) : pydict :=
  fold_left (fun acc kv => dict_set (fst kv) (snd kv) acc) other d.

(** *** [repr] and [str] *)

Definition dquote : ascii := ascii_of_nat 34.
Definition squote : ascii := ascii_of_nat 39.
Definition backslash : ascii := ascii_of_nat 92.

Definition hex_digit (n : nat) : ascii :=
  match get n "0123456789abcdef" with
  | Some c => c
  | None => "0"%char
  end.

Definition char_str (c : ascii) : string := String c EmptyString.

(** One ASCII character of a string's [repr] between quotes [q]; a byte
    above 127 is left to [escape_from]. *)
Definition escape_char (q c : ascii) : string :=
  let n := nat_of_ascii c in
  if Ascii.eqb c backslash then String backslash (char_str backslash)
  else if Ascii.eqb c q then String backslash (char_str q)
  else if Nat.eqb n 10 then String backslash "n"
  else if Nat.eqb n 13 then String backslash "r"
  else if Nat.eqb n 9 then String backslash "t"
  else if Nat.ltb n 32 || Nat.eqb n 127 then
    String backslash (String "x" (String (hex_digit (Nat.div n 16))
                                         (char_str (hex_digit (Nat.modulo n 16)))))
  else char_str c.

(** A string is the UTF-8 encoding of the Python [str]. *)
Definition continuation (c : ascii) : bool :=
  let n := N_of_ascii c in (128 <=? n)%N && (n <? 192)%N.

Definition low_bits (c : ascii) : N := (N_of_ascii c - 128)%N.

(** The character that starts at byte [c], followed by the bytes [r], when
    it takes more than one byte: its code point and the number of bytes
    after the first. *)
Definition code_point (c : ascii) (r : list ascii) : option (N * nat) :=
  let n := N_of_ascii c in
  match r with
  | b1 :: r1 =>
      if (194 <=? n)%N && (n <? 224)%N && continuation b1 then
        Some (((n - 192) * 64 + low_bits b1)%N, 1%nat)
      else
        match r1 with
        | b2 :: r2 =>
            if (224 <=? n)%N && (n <? 240)%N && continuation b1 && continuation b2 then
              Some (((n - 224) * 4096 + low_bits b1 * 64 + low_bits b2)%N, 2%nat)
            else
              match r2 with
              | b3 :: _ =>
                  if (240 <=? n)%N && (n <? 245)%N && continuation b1
                     && continuation b2 && continuation b3 then
                    Some (((n - 240) * 262144 + low_bits b1 * 4096
                           + low_bits b2 * 64 + low_bits b3)%N, 3%nat)
                  else None
              | [] => None
              end
        | [] => None
        end
  | [] => None
  end.

(** The code points beyond ASCII that [str.isprintable] refuses, whatever
    the version of the Unicode database: control characters, separators,
    format characters, surrogates, private use and noncharacters. *)
Definition not_printable_ranges : list (N * N) :=
  [(0x80, 0xA0); (0xAD, 0xAD); (0x600, 0x605); (0x61C, 0x61C); (0x6DD, 0x6DD);
   (0x70F, 0x70F); (0x890, 0x891); (0x8E2, 0x8E2); (0x1680, 0x1680);
   (0x180E, 0x180E); (0x2000, 0x200F); (0x2028, 0x202F); (0x205F, 0x206F);
   (0x3000, 0x3000); (0xD800, 0xF8FF); (0xFDD0, 0xFDEF); (0xFEFF, 0xFEFF);
   (0xFFF9, 0xFFFB); (0x110BD, 0x110BD); (0x110CD, 0x110CD);
   (0x13430, 0x1343F); (0x1BCA0, 0x1BCA3); (0x1D173, 0x1D17A);
   (0xE0001, 0xE0001); (0xE0020, 0xE007F); (0xF0000, 0x10FFFF)]%N.

(** [chr(cp).isprintable()] beyond ASCII.  A code point that is unassigned
    in one version of the Unicode database and assigned in the next counts
    as printable. *)
Definition isprintable (cp : N) : bool :=
  negb (existsb (fun r => (fst r <=? cp)%N && (cp <=? snd r)%N) not_printable_ranges
        || (0xFFFE <=? cp mod 0x10000)%N).

Fixpoint hex (digits : nat) (n : N) : string :=
  match digits with
  | O => EmptyString
  | S d => hex d (n / 16)%N ++ char_str (hex_digit (N.to_nat (n mod 16)%N))
  end.

(** The escape of a character that is not printable: two, four or eight
    hexadecimal digits. *)
Definition escape_code_point (cp : N) : string :=
  if (cp <? 0x100)%N then String backslash (String "x" (hex 2 cp))
  else if (cp <? 0x10000)%N then String backslash (String "u" (hex 4 cp))
  else String backslash (String "U" (hex 8 cp)).

(** The characters of a string's [repr] between quotes [q]; [skip] counts
    the bytes still to pass of a character already escaped. *)
Fixpoint escape_from (q : ascii) (skip : nat) (l : list ascii) : string :=
  match l with
  | [] => EmptyString
  | c :: r =>
      match skip with
      | S k => escape_from q k r
      | O =>
          match code_point c r with
          | Some (cp, more) =>
              if isprintable cp then char_str c ++ escape_from q 0 r
              else escape_code_point cp ++ escape_from q more r
          | None => escape_char q c ++ escape_from q 0 r
          end
      end
  end.

Definition contains_char (c : ascii) (s : string) : bool :=
  existsb (Ascii.eqb c) (list_ascii_of_string s).

(** Single quotes, unless the string has a single quote and no double one. *)
Definition repr_str (s : string) : string :=
  let q := if contains_char squote s && negb (contains_char dquote s)
           then dquote else squote in
  String q (escape_from q 0 (list_ascii_of_string s)) ++ char_str q.

Definition pad_left (width : nat) (s : string) : string :=
  string_of_list_ascii (repeat "0"%char (width - String.length s)) ++ s.

Definition repr_datetime (d : datetime) : string :=
  let fields :=
    app [dt_year d; dt_month d; dt_day d; dt_hour d; dt_minute d]
        (if dt_microsecond d =? 0
         then if dt_second d =? 0 then [] else [dt_second d]
         else [dt_second d; dt_microsecond d]) in
  "datetime.datetime(" ++ String.concat ", " (map Double.string_of_Z fields) ++ ")".

(** [d.isoformat(sep=' ')] *)
Definition str_datetime (d : datetime) : string :=
  let p n z := pad_left n (Double.string_of_Z z) in
  p 4%nat (dt_year d) ++ "-" ++ p 2%nat (dt_month d) ++ "-" ++ p 2%nat (dt_day d)
  ++ " " ++ p 2%nat (dt_hour d) ++ ":" ++ p 2%nat (dt_minute d) ++ ":"
  ++ p 2%nat (dt_second d)
  ++ (if dt_microsecond d =? 0 then EmptyString else "." ++ p 6%nat (dt_microsecond d)).

(** [repr(v)].  A container asks each element in turn; the first element
    whose [repr] raises ends the call with that exception. *)
Fixpoint py_repr (v : pyval) : strres :=
  match v with
  | PyNone => Returned "None"
  | PyBool b => Returned (if b then "True" else "False")
  | PyInt z => Returned (Double.string_of_Z z)
  | PyFloat x => Returned (Double.repr x)
  | PyStr s => Returned (repr_str s)
  | PyTuple xs =>
      let fix items (xs : list pyval) : outcome pyexn (list string) :=
        match xs with
        | [] => Returned []
        | x :: r =>
            match py_repr x with
            | Raised e => Raised e
            | Returned s =>
                match items r with
                | Raised e => Raised e
                | Returned l => Returned (s :: l)
                end
            end
        end in
      match items xs with
      | Raised e => Raised e
      | Returned [s] => Returned ("(" ++ s ++ ",)")
      | Returned l => Returned ("(" ++ String.concat ", " l ++ ")")
      end
  | PyDict kvs =>
      let fix items (kvs : list (string * pyval)) : outcome pyexn (list string) :=
        match kvs with
        | [] => Returned []
        | (k, x) :: r =>
            match py_repr x with
            | Raised e => Raised e
            | Returned s =>
                match items r with
                | Raised e => Raised e
                | Returned l => Returned ((repr_str k ++ ": " ++ s) :: l)
                end
            end
        end in
      match items kvs with
      | Raised e => Raised e
      | Returned l => Returned ("{" ++ String.concat ", " l ++ "}")
      end
  | PyDatetime d => Returned (repr_datetime d)
  | PyObject _ r _ => r
  end.

(** [str(v)] *)
Definition py_str (v : pyval) : strres :=
  match v with
  | PyStr s => Returned s
  | PyDatetime d => Returned (str_datetime d)
  | PyObject _ _ s => s
  | _ => py_repr v
  end.

(** ** Computations: state passing with exceptions *)

Definition M (S A : Type) : Type := S -> outcome pyexn A * S.

Definition ret {S A : Type} (a : A) : M S A := fun s => (Returned a, s).

Definition raise {S A : Type} (e : pyexn) : M S A := fun s => (Raised e, s).

Definition bind {S A B : Type} (m : M S A) (k : A -> M S B) : M S B :=
  fun s =>
    match m s with
    | (Returned a, s') => k a s'
    | (Raised e, s') => (Raised e, s')
    end.

Declare Scope py_scope.
Delimit Scope py_scope with py.
Notation "x <- m ;; k" := (bind m (fun x => k))
  (at level 100, m at next level, right associativity) : py_scope.
Notation "m ;; k" := (bind m (fun _ => k))
  (at level 100, right associativity) : py_scope.
Local Open Scope py_scope.

(** A call whose outcome does not depend on the state, such as [str(v)]. *)
Definition of_outcome {S A : Type} (o : outcome pyexn A) : M S A := fun s => (o, s).

Definition gets {S A : Type} (f : S -> A) : M S A := fun s => (Returned (f s), s).

Definition modify {S : Type} (f : S -> S) : M S unit := fun s => (Returned tt, f s).

(** [try: body  except cls as e: handler e] *)
Definition try_except {S A : Type} (body : M S A) (cls : string)
    (handler : pyexn -> M S A) : M S A :=
  fun s =>
    match body s with
    | (Raised e, s') =>
        if exc_isinstance e cls then handler e s' else (Raised e, s')
    | r => r
    end.

(** [try: body  finally: fin].  The [finally] block runs on every exit of
    the body; when it completes, the body's return or exception goes on,
    and when it raises, its exception replaces either. *)
Definition try_finally {S A : Type} (body : M S A) (fin : M S unit) : M S A :=
  fun s =>
    let (o, s') := body s in
    match fin s' with
    | (Returned _, s'') => (o, s'')
    | (Raised e, s'') => (Raised e, s'')
    end.

(** ** The process state *)

(** A pymongo collection handle, identified by connection string,
    database name and collection name. *)
Definition Collection : Type := string * string * string.

(** A [logging.Handler] of the one class the program defines. *)
Record handler : Type := MongoDBHandler {
  h_level : Z;
  h_collection : Collection
}.

Record Logger : Type := mk_logger {
  lg_level : Z;
  lg_handlers : list handler
}.

Record LogRecord : Type := mk_record {
  rec_name : string;
  rec_levelno : Z;
  rec_levelname : string;
  rec_msg : pyval
}.

(** What a run can observe and change: the clocks (the n-th reading of
    [time()] and of [datetime.now()]), the database (the documents of each
    collection in insertion order; the n-th [insert_one] of the run fails
    with a [PyMongoError] when [insert_fault n] gives its message), the
    [logging] module's logger registry, and the lines written to
    [sys.stderr]. *)
Record world : Type := mk_world {
  time_source : nat -> spec_float;
  time_reads : nat;
  now_source : nat -> datetime;
  now_reads : nat;
  insert_fault : nat -> option string;
  insert_calls : nat;
  collections : gmap Collection (list pydict);
  loggers : gmap string Logger;
  stderr : list string
}.

Definition NOTSET : Z := 0.
Definition DEBUG : Z := 10.
Definition INFO : Z := 20.
Definition WARNING : Z := 30.
Definition ERROR : Z := 40.
Definition CRITICAL : Z := 50.

(** [time.time()] *)
Definition time : M world spec_float :=
  fun w =>
    (Returned (time_source w (time_reads w)),
     mk_world (time_source w) (S (time_reads w)) (now_source w) (now_reads w)
              (insert_fault w) (insert_calls w) (collections w) (loggers w)
              (stderr w)).

(** [datetime.now()] *)
Definition datetime_now : M world datetime :=
  fun w =>
    (Returned (now_source w (now_reads w)),
     mk_world (time_source w) (time_reads w) (now_source w) (S (now_reads w))
              (insert_fault w) (insert_calls w) (collections w) (loggers w)
              (stderr w)).

Definition documents (c : Collection) (w : world) : list pydict :=
  default [] (collections w !! c).

(** [collection.insert_one(doc)]: one write, which either appends the
    document or raises. *)
Definition insert_one (c : Collection) (doc : pydict) : M world unit :=
  fun w =>
    let store :=
      match insert_fault w (insert_calls w) with
      | Some _ => collections w
      | None => <[c := app (documents c w) [doc]]> (collections w)
      end in
    (match insert_fault w (insert_calls w) with
     | Some msg => Raised (PyMongoError msg)
     | None => Returned tt
     end,
     mk_world (time_source w) (time_reads w) (now_source w) (now_reads w)
              (insert_fault w) (S (insert_calls w)) store (loggers w)
              (stderr w)).

Definition write_stderr (line : string) : M world unit :=
  modify (fun w =>
    mk_world (time_source w) (time_reads w) (now_source w) (now_reads w)
             (insert_fault w) (insert_calls w) (collections w) (loggers w)
             (app (stderr w) [line])).

Definition set_loggers (f : gmap string Logger -> gmap string Logger) : M world unit :=
  modify (fun w =>
    mk_world (time_source w) (time_reads w) (now_source w) (now_reads w)
             (insert_fault w) (insert_calls w) (collections w) (f (loggers w))
             (stderr w)).

(** ** The part of [logging] the program uses *)

Definition new_logger : Logger := mk_logger NOTSET [].

Definition the_logger (name : string) (w : world) : Logger :=
  default new_logger (loggers w !! name).

(** [logging.getLogger(name)]: the registered logger of that name, created
    without handlers on first use.  A logger is referred to by its name. *)
Definition getLogger (name : string) : M world string :=
  set_loggers (fun ls =>
    match ls !! name with
    | Some _ => ls
    | None => <[name := new_logger]> ls
    end) ;;
  ret name.

(** [logger.setLevel(level)] *)
Definition setLevel (name : string) (level : Z) : M world unit :=
  lg <- gets (the_logger name) ;;
  set_loggers (insert name (mk_logger level (lg_handlers lg))).

(** [logger.addHandler(hdlr)], for a handler object not yet in the list. *)
Definition addHandler (name : string) (hdlr : handler) : M world unit :=
  lg <- gets (the_logger name) ;;
  set_loggers (insert name (mk_logger (lg_level lg) (app (lg_handlers lg) [hdlr]))).

(** [Handler.handleError(record)]: a report on [sys.stderr], nothing raised. *)
Definition handleError (self : handler) (record : LogRecord) : M world unit :=
  write_stderr "--- Logging error ---".

(** [getLevelName(level)]: the name in the table of the module, which the
    program leaves as it is, and ["Level n"] for a level outside it. *)
Definition getLevelName (level : Z) : string :=
  if level =? CRITICAL then "CRITICAL"
  else if level =? ERROR then "ERROR"
  else if level =? WARNING then "WARNING"
  else if level =? INFO then "INFO"
  else if level =? DEBUG then "DEBUG"
  else if level =? NOTSET then "NOTSET"
  else "Level " ++ Double.string_of_Z level.

(** The level that applies to a logger: its own, or the root's [WARNING]
    while its own is [NOTSET]. *)
Definition getEffectiveLevel (lg : Logger) : Z :=
  if lg_level lg =? NOTSET then WARNING else lg_level lg.

(** ** [mongodb_handler.py]: [MongoDBHandler.emit] *)

Definition emit (self : handler) (record : LogRecord) : M world unit :=
  try_except
    (log_entry <-
       match rec_msg record with
       | PyDict d => ret d
       | msg => s <- of_outcome (py_str msg) ;; ret [("message", PyStr s)]
       end ;;
     now <- datetime_now ;;
     let log_entry :=
       dict_update log_entry
         [("timestamp", PyDatetime now); ("level", PyStr (rec_levelname record))] in
     insert_one (h_collection self) log_entry)
    "Exception"
    (fun _ => handleError self record).

(** ** [Logger.info] and [Logger.error] *)

(** The handlers of the logger in turn, each one whose level admits the
    record. *)
Fixpoint call_each (hs : list handler) (record : LogRecord) : M world unit :=
  match hs with
  | [] => ret tt
  | h :: r =>
      (if h_level h <=? rec_levelno record then emit h record else ret tt) ;;
      call_each r record
  end.

(** [logging.lastResort], for a logger without any handler: the message on
    [sys.stderr] when the record is a warning or worse. *)
Definition lastResort (record : LogRecord) : M world unit :=
  if WARNING <=? rec_levelno record then
    try_except
      (s <- of_outcome (py_str (rec_msg record)) ;; write_stderr s)
      "Exception"
      (fun _ => write_stderr "--- Logging error ---")
  else ret tt.

(** [Logger.callHandlers]: the logger's handlers, or [lastResort] when there
    is none.  The record goes on to the root logger, on which the program
    registers no handler. *)
Definition callHandlers (name : string) (record : LogRecord) : M world unit :=
  lg <- gets (the_logger name) ;;
  match lg_handlers lg with
  | [] => lastResort record
  | hs => call_each hs record
  end.

(** [logger.log(level, msg)] *)
Definition Logger_log (name : string) (level : Z) (msg : pyval) : M world unit :=
  lg <- gets (the_logger name) ;;
  if getEffectiveLevel lg <=? level
  then callHandlers name (mk_record name level (getLevelName level) msg)
  else ret tt.

Definition Logger_info (name : string) (msg : pyval) : M world unit :=
  Logger_log name INFO msg.

Definition Logger_error (name : string) (msg : pyval) : M world unit :=
  Logger_log name ERROR msg.

(** ** [decorator.py]: [MongoDBLogDecorator] *)

Record MongoDBLogDecorator : Type := mk_decorator {
  client : string;
  db : string * string;
  collection : Collection;
  logger : string
}.

(** [MongoDBLogDecorator.__init__].  [MongoClient(host=...)], [client[db_name]]
    and [db[collection_name]] make handles without connecting (pymongo
    connects on first use); a handle is the strings that identify it. *)
Definition init (connection_string db_name collection_name : string)
    : M world MongoDBLogDecorator :=
  let client := connection_string in
  let db := (client, db_name) in
  let collection := (client, db_name, collection_name) in
  logger <- getLogger "MongoDBLogger" ;;
  setLevel logger DEBUG ;;
  lg <- gets (the_logger logger) ;;
  match lg_handlers lg with
  | [] =>
      let mongo_handler := MongoDBHandler NOTSET collection in
      addHandler logger mongo_handler
  | _ => ret tt
  end ;;
  ret (mk_decorator client db collection logger).

(** A callable: the name of its type, its [__name__] when it has one, and
    what a call with positional and keyword arguments does. *)
Record pycallable : Type := mk_callable {
  fn_type : string;
  fn_name : option string;
  fn_call : list pyval -> pydict -> M world pyval
}.

(** [func.__name__] *)
Definition get_name (func : pycallable) : outcome pyexn string :=
  match fn_name func with
  | Some n => Returned n
  | None =>
      Raised (AttributeError
        ("'" ++ fn_type func ++ "' object has no attribute '__name__'"))
  end.

(** The local variables of [wrapper] that the [try] statement assigns. *)
Record frame : Type := mk_frame {
  result : pyval;
  error_msg : pyval;
  status : string
}.

Definition lift {A : Type} (m : M world A) : M (frame * world) A :=
  fun s => let (o, w) := m (snd s) in (o, (fst s, w)).

Definition local {A : Type} (f : frame -> A) : M (frame * world) A :=
  gets (fun s => f (fst s)).

Definition assign (f : frame -> frame) : M (frame * world) unit :=
  modify (fun s => (f (fst s), snd s)).

Definition set_result (v : pyval) (fr : frame) : frame :=
  mk_frame v (error_msg fr) (status fr).
Definition set_error_msg (v : pyval) (fr : frame) : frame :=
  mk_frame (result fr) v (status fr).
Definition set_status (s : string) (fr : frame) : frame :=
  mk_frame (result fr) (error_msg fr) s.

Definition with_frame {A : Type} (fr : frame) (m : M (frame * world) A) : M world A :=
  fun w => let (o, s) := m (fr, w) in (o, snd s).

(** [MongoDBLogDecorator.__call__.wrapper] *)
Definition wrapper (self : MongoDBLogDecorator) (func : pycallable)
    (args : list pyval) (kwargs : pydict) : M world pyval :=
  start_time <- time ;;
  with_frame (mk_frame PyNone PyNone "success")
    (try_finally
       (try_except
          (r <- lift (fn_call func args kwargs) ;;
           assign (set_result r) ;;
           local result)
          "Exception"
          (fun e =>
             assign (set_status "error") ;;
             msg <- of_outcome (exc_str e) ;;
             assign (set_error_msg (PyStr msg)) ;;
             raise e))
       (now <- lift time ;;
        let duration := Double.mul (Double.sub now start_time) (Double.of_Z 1000) in
        f_name <- of_outcome (get_name func) ;;
        s_args <- of_outcome (py_str (PyTuple args)) ;;
        s_kwargs <- of_outcome (py_str (PyDict kwargs)) ;;
        res <- local result ;;
        s_result <- of_outcome (py_str res) ;;
        exception <- local error_msg ;;
        st <- local status ;;
        let log_payload :=
          [("function", PyStr f_name);
           ("args", PyStr s_args);
           ("kwargs", PyStr s_kwargs);
           ("result", PyStr s_result);
           ("exception", exception);
           ("status", PyStr st);
           ("duration_ms", PyFloat (Double.round_ndigits duration 2))] in
        if String.eqb st "success" then
          lift (Logger_info (logger self) (PyDict log_payload))
        else if String.eqb st "error" then
          lift (Logger_error (logger self) (PyDict log_payload))
        else ret tt)).

(** [MongoDBLogDecorator.__call__]: the wrapper, which [functools.wraps]
    names after the function when the function has a name. *)
Definition call (self : MongoDBLogDecorator) (func : pycallable) : pycallable :=
  mk_callable "function" (Some (default "wrapper" (fn_name func)))
              (wrapper self func).

(** ** Calling a Python function *)

Fixpoint index_of (k : string) (names : list string) : option nat :=
  match names with
  | [] => None
  | n :: r => if String.eqb k n then Some O else option_map S (index_of k r)
  end.

(** The keyword arguments go to the parameters of their names; a name that
    is no parameter, or one a positional argument already filled, is a
    [TypeError]. *)
Fixpoint bind_keywords (fname : string) (params : list string)
    (slots : list (option pyval)) (kwargs : pydict)
    : outcome pyexn (list (option pyval)) :=
  match kwargs with
  | [] => Returned slots
  | (k, v) :: r =>
      match index_of k params with
      | None =>
          Raised (TypeError
            (fname ++ "() got an unexpected keyword argument '" ++ k ++ "'"))
      | Some i =>
          match slots !! i with
          | Some None => bind_keywords fname params (<[i := Some v]> slots) r
          | _ =>
              Raised (TypeError
                (fname ++ "() got multiple values for argument '" ++ k ++ "'"))
          end
      end
  end.

Fixpoint missing_names (params : list string) (slots : list (option pyval))
    : list string :=
  match params, slots with
  | p :: ps, None :: ss => ("'" ++ p ++ "'") :: missing_names ps ss
  | _ :: ps, _ :: ss => missing_names ps ss
  | _, _ => []
  end.

Definition join_names (names : list string) : string :=
  match names with
  | [a] => a
  | [a; b] => a ++ " and " ++ b
  | _ => String.concat ", " (removelast names) ++ ", and " ++ List.last names EmptyString
  end.

Definition plural (n : nat) (word : string) : string :=
  if Nat.eqb n 1 then word else word ++ "s".

(** The values of the parameters, in order, for a function whose
    parameters are all positional-or-keyword and have no default. *)
Definition bind_arguments (fname : string) (params : list string)
    (args : list pyval) (kwargs : pydict) : outcome pyexn (list pyval) :=
  let n := length params in
  let slots := app (map Some (firstn n args)) (repeat None (n - length args)) in
  match bind_keywords fname params slots kwargs with
  | Raised e => Raised e
  | Returned slots =>
      if Nat.ltb n (length args) then
        Raised (TypeError
          (fname ++ "() takes " ++ Double.string_of_Z (Z.of_nat n)
           ++ " positional " ++ plural n "argument" ++ " but "
           ++ Double.string_of_Z (Z.of_nat (length args))
           ++ (if Nat.eqb (length args) 1 then " was" else " were") ++ " given"))
      else
        match missing_names params slots with
        | [] => Returned (omap id slots)
        | missing =>
            Raised (TypeError
              (fname ++ "() missing "
               ++ Double.string_of_Z (Z.of_nat (length missing))
               ++ " required positional " ++ plural (length missing) "argument"
               ++ ": " ++ join_names missing))
        end
  end.

(** ** Numbers: [int] (with [bool]) and [float] *)

Inductive number : Type :=
| NInt (z : Z)
| NFloat (x : spec_float).

Definition as_number (v : pyval) : option number :=
  match v with
  | PyBool b => Some (NInt (if b then 1 else 0))
  | PyInt z => Some (NInt z)
  | PyFloat x => Some (NFloat x)
  | _ => None
  end.

Definition of_number (n : number) : pyval :=
  match n with
  | NInt z => PyInt z
  | NFloat x => PyFloat x
  end.

(** [float(z)] for an [int] *)
Definition to_float (z : Z) : outcome pyexn spec_float :=
  match Double.of_Z z with
  | S754_infinity _ => Raised (OverflowError "int too large to convert to float")
  | x => Returned x
  end.

(** [v < 0], with the literal [0] on the right.  A value that is no number
    has no [__lt__] that takes an [int], and [int] has no reflected
    comparison with it: [TypeError]. *)
Definition lt_zero (v : pyval) : outcome pyexn bool :=
  match as_number v with
  | Some (NInt z) => Returned (z <? 0)
  | Some (NFloat x) => Returned (Double.ltb x (S754_zero false))
  | None =>
      Raised (TypeError
        ("'<' not supported between instances of '" ++ type_name v
         ++ "' and 'int'"))
  end.

Definition arith (sym : string) (fz : Z -> Z -> Z)
    (ff : spec_float -> spec_float -> spec_float) (a b : number)
    : outcome pyexn pyval :=
  match a, b with
  | NInt x, NInt y => Returned (PyInt (fz x y))
  | NInt x, NFloat y =>
      match to_float x with
      | Raised e => Raised e
      | Returned x' => Returned (PyFloat (ff x' y))
      end
  | NFloat x, NInt y =>
      match to_float y with
      | Raised e => Raised e
      | Returned y' => Returned (PyFloat (ff x y'))
      end
  | NFloat x, NFloat y => Returned (PyFloat (ff x y))
  end.

(** [a + b] and [a * b] where [a] is a number.  A value [b] that is no
    number has no [__radd__] or [__rmul__] that takes one: [TypeError]. *)
Definition number_op (sym : string) (fz : Z -> Z -> Z)
    (ff : spec_float -> spec_float -> spec_float) (a : number) (b : pyval)
    : outcome pyexn pyval :=
  match as_number b with
  | Some n => arith sym fz ff a n
  | None =>
      Raised (TypeError
        ("unsupported operand type(s) for " ++ sym ++ ": '"
         ++ type_name (of_number a) ++ "' and '" ++ type_name b ++ "'"))
  end.

(** ** The example of [decorator.py] *)

(** The body of [calculate_payment(price, tax_rate)] *)
Definition calculate_payment_body (price tax_rate : pyval) : outcome pyexn pyval :=
  match lt_zero price with
  | Raised e => Raised e
  | Returned true => Raised (ValueError "가격은 음수일 수 없습니다.")
  | Returned false =>
      match number_op "+" Z.add Double.add (NInt 1) tax_rate with
      | Raised e => Raised e
      | Returned t =>
          match as_number price with
          | Some p => number_op "*" Z.mul Double.mul p t
          | None => Raised (TypeError "unsupported operand type(s) for *")
          end
      end
  end.

Definition calculate_payment : pycallable :=
  mk_callable "function" (Some "calculate_payment")
    (fun args kwargs =>
       match bind_arguments "calculate_payment" ["price"; "tax_rate"] args kwargs with
       | Returned [price; tax_rate] =>
           of_outcome (calculate_payment_body price tax_rate)
       | Returned _ => raise (TypeError "calculate_payment()")
       | Raised e => raise e
       end).

(** A process that has just started: no logger registered, nothing stored,
    nothing written; the clocks and the database faults are given. *)
Definition fresh_world (time_source : nat -> spec_float)
    (now_source : nat -> datetime) (insert_fault : nat -> option string) : world :=
  mk_world time_source 0 now_source 0 insert_fault 0 ∅ ∅ [].

(** The float literal [0.1] *)
Definition lit_0_1 : spec_float := Double.of_ratio false 1 10.

(** The [__main__] block up to the first call:
    [log_to_mongo = MongoDBLogDecorator(...)], the decorated definition, and
    [calculate_payment(1000, 0.1)]. *)
Definition trace_collection (connection_string : string) : Collection :=
  (connection_string, "app_logs", "function_traces").

Definition run_1 (connection_string : string) : M world pyval :=
  log_to_mongo <- init connection_string "app_logs" "function_traces" ;;
  let calculate_payment := call log_to_mongo calculate_payment in
  fn_call calculate_payment [PyInt 1000; PyFloat lit_0_1] [].

(** The second call, [calculate_payment(-100, 0.1)], inside
    [try: ... except ValueError: ...]; the result tells whether the
    [ValueError] arrived. *)
Definition run_2 (log_to_mongo : MongoDBLogDecorator) : M world bool :=
  let calculate_payment := call log_to_mongo calculate_payment in
  try_except
    (fn_call calculate_payment [PyInt (-100); PyFloat lit_0_1] [] ;; ret false)
    "ValueError"
    (fun _ => ret true).

(** ** Vocabulary of the statements *)

(** *** The worlds the steps of a run leave *)

(** The world after one reading of [time()], and the value read. *)
Definition after_time (w : world) : world := snd (time w).
Definition reading (w : world) : spec_float := time_source w (time_reads w).

Definition after_now (w : world) : world := snd (datetime_now w).
Definition now_reading (w : world) : datetime := now_source w (now_reads w).
Definition after_insert (c : Collection) (doc : pydict) (w : world) : world :=
  snd (insert_one c doc w).
Definition after_report (w : world) : world :=
  snd (write_stderr "--- Logging error ---" w).
Definition with_loggers (ls : gmap string Logger) (w : world) : world :=
  snd (set_loggers (fun _ => ls) w).

(** Whether the next [insert_one] fails. *)
Definition next_insert_fails (w : world) : bool :=
  match insert_fault w (insert_calls w) with
  | Some _ => true
  | None => false
  end.

(** *** The sink *)


(** The mapping [emit] makes of a message: a mapping as it is, anything
    else by [str] under the key ["message"]. *)
Definition payload_mapping (msg : pyval) : outcome pyexn pydict :=
  match msg with
  | PyDict d => Returned d
  | m =>
      match py_str m with
      | Returned s => Returned [("message", PyStr s)]
      | Raised e => Raised e
      end
  end.

(** The document [emit] hands to [insert_one]. *)
Definition log_entry_of (entry : pydict) (levelname : string) (w : world) : pydict :=
  dict_update entry
    [("timestamp", PyDatetime (now_reading w)); ("level", PyStr levelname)].

(** The world [emit] leaves for a payload that became [entry]. *)
Definition after_emit (c : Collection) (entry : pydict) (levelname : string)
    (w : world) : world :=
  let w' := after_insert c (log_entry_of entry levelname w) (after_now w) in
  if next_insert_fails w then after_report w' else w'.

(** *** The record *)

(** [round((t1 - t0) * 1000, 2)] *)
Definition elapsed_ms (t0 t1 : spec_float) : spec_float :=
  Double.round_ndigits (Double.mul (Double.sub t1 t0) (Double.of_Z 1000)) 2.

(** The value of a field that holds a string or [None]. *)
Definition opt_str (o : option string) : pyval :=
  match o with
  | Some s => PyStr s
  | None => PyNone
  end.

(** The record [wrapper] assembles. *)
Definition telemetry (f_name s_args s_kwargs s_result : string)
    (exception : option string) (st : string) (ms : spec_float) : pydict :=
  [("function", PyStr f_name);
   ("args", PyStr s_args);
   ("kwargs", PyStr s_kwargs);
   ("result", PyStr s_result);
   ("exception", opt_str exception);
   ("status", PyStr st);
   ("duration_ms", PyFloat ms)].


(** *** The run of a wrapped call *)

(** The local [result] when the [finally] block starts: the value returned,
    or [None] still when the call raised. *)
Definition result_local (o : outcome pyexn pyval) : pyval :=
  match o with
  | Returned r => r
  | Raised _ => PyNone
  end.

(** The four strings of a record, asked for in the order of the source:
    [func.__name__], [str(args)], [str(kwargs)], [str(result)]; the first
    call that raises ends the sequence. *)
Definition stringify (func : pycallable) (args : list pyval) (kwargs : pydict)
    (res : pyval) : outcome pyexn (string * string * string * string) :=
  match get_name func with
  | Raised e => Raised e
  | Returned n =>
      match py_str (PyTuple args) with
      | Raised e => Raised e
      | Returned a =>
          match py_str (PyDict kwargs) with
          | Raised e => Raised e
          | Returned k =>
              match py_str res with
              | Raised e => Raised e
              | Returned s => Returned (n, a, k, s)
              end
          end
      end
  end.

(** [str(e)] returns for the exception, if any, that the [except] clause
    handles. *)
Definition handled_message_returns (o : outcome pyexn pyval) : Prop :=
  forall e, o = Raised e -> exc_isinstance e "Exception" = true ->
            exists msg, exc_str e = Returned msg.

(** What the [try] statement leaves behind for the [finally] block: the
    locals [result], [error_msg], [status], and the return or exception
    that is under way. *)
Definition try_leaves (o : outcome pyexn pyval)
    : pyval * option string * string * outcome pyexn pyval :=
  match o with
  | Returned r => (r, None, "success", Returned r)
  | Raised e =>
      if exc_isinstance e "Exception" then
        match exc_str e with
        | Returned msg => (PyNone, Some msg, "error", Raised e)
        | Raised e' => (PyNone, None, "error", Raised e')
        end
      else (PyNone, None, "success", Raised e)
  end.

(** The locals [error_msg] and [status] that the [try] statement leaves. *)
Definition exception_of (o : outcome pyexn pyval) : option string :=
  snd (fst (fst (try_leaves o))).
Definition status_of (o : outcome pyexn pyval) : string :=
  snd (fst (try_leaves o)).

(** [m], after which [o] stands unless [m] raised. *)
Definition and_then {A : Type} (m : M world unit) (o : outcome pyexn A) : M world A :=
  fun w =>
    match m w with
    | (Returned _, w') => (o, w')
    | (Raised e, w') => (Raised e, w')
    end.

(** The level of the [match status] statement's call. *)
Definition level_of_status (st : string) : Z :=
  if String.eqb st "success" then INFO else ERROR.

(** A callable without effect on the world, such as [calculate_payment]. *)
Definition pure_callable (func : pycallable) : Prop :=
  forall args kwargs w, snd (fn_call func args kwargs w) = w.

(** *** Registration *)

(** [n] constructions of the decorator with one configuration. *)
Fixpoint init_times (n : nat) (connection_string db_name collection_name : string)
    : M world unit :=
  match n with
  | O => ret tt
  | S n' =>
      init connection_string db_name collection_name ;;
      init_times n' connection_string db_name collection_name
  end.

(** The handlers of the shared logger once a decorator for collection [c]
    has been constructed. *)
Definition registered (c : Collection) (w : world) : list handler :=
  match lg_handlers (the_logger "MongoDBLogger" w) with
  | [] => [MongoDBHandler NOTSET c]
  | hs => hs
  end.

(** *** Doubles *)

(** A double that is a zero of either sign, or positive. *)
Definition not_negative (x : spec_float) : Prop :=
  match x with
  | S754_zero _ => True
  | S754_infinity s | S754_finite s _ _ => s = false
  | S754_nan => False
  end.

(** A clock reading: a finite double in canonical form. *)
Definition clock_reading (x : spec_float) : Prop :=
  Double.is_finite x = true /\ valid_binary Double.prec Double.emax x = true.

(** *** Inputs of the examples *)

(** A process that has just started: the clock advances one second per
    reading from [t0], the calendar one microsecond, and the database is up
    or down throughout. *)
Definition example_world (t0 : Z) (db_down : bool) : world :=
  fresh_world (fun n => Double.of_Z (t0 + Z.of_nat n))
              (fun n => mk_datetime 2025 1 1 0 0 0 (Z.of_nat n))
              (fun _ => if db_down then Some "connection refused" else None).

(** A process that has just started, whose clock gives the listed readings
    in turn and whose database is up. *)
Definition clock_world (readings : list spec_float) : world :=
  fresh_world (fun n => List.nth n readings (S754_zero false))
              (fun n => mk_datetime 2025 1 1 0 0 0 (Z.of_nat n))
              (fun _ => None).

(** The decorator of the [__main__] block, and the world its construction
    leaves in a process that has just started. *)
Definition example_decorator : MongoDBLogDecorator :=
  mk_decorator "mongodb://localhost" ("mongodb://localhost", "app_logs")
               (trace_collection "mongodb://localhost") "MongoDBLogger".

Definition example_started (db_down : bool) : world :=
  snd (init "mongodb://localhost" "app_logs" "function_traces"
            (example_world 0 db_down)).

(** A function that takes any arguments and returns [v]. *)
Definition constant_fn (name : string) (v : pyval) : pycallable :=
  mk_callable "function" (Some name) (fun _ _ => ret v).

(** A function that takes any arguments and raises [e]. *)
Definition raising_fn (name : string) (e : pyexn) : pycallable :=
  mk_callable "function" (Some name) (fun _ _ => raise e).

Definition RuntimeError := builtin_exn "RuntimeError".

(** An instance of a class whose [__repr__] raises (and [__str__] with it). *)
Definition unprintable : pyval :=
  PyObject "Unprintable" (Raised (RuntimeError "no representation"))
                         (Raised (RuntimeError "no representation")).

(** ** [decorator.py]: the [__main__] block *)

(** The lines printed on [sys.stdout] go beside the world. *)
Definition lift_out {A : Type} (m : M world A) : M (list string * world) A :=
  fun s => let (o, w) := m (snd s) in (o, (fst s, w)).

(** [print(line)] *)
Definition print (line : string) : M (list string * world) unit :=
  modify (fun s => (app (fst s) [line], snd s)).

(** The block run with [connection_string] for the value of the
    environment variable [MONGODB_CONNECTION_STRING]. *)
Definition main (connection_string : string) : M (list string * world) unit :=
  log_to_mongo <-
    lift_out (init connection_string "app_logs" "function_traces") ;;
  print "MongoDBLogDecorator 데코레이터 테스트 시작." ;;
  let calculate_payment := call log_to_mongo calculate_payment in
  value <- lift_out (fn_call calculate_payment [PyInt 1000; PyFloat lit_0_1] []) ;;
  s <- of_outcome (py_str value) ;;
  print ("Run 1: " ++ s) ;;
  try_except
    (lift_out (fn_call calculate_payment [PyInt (-100); PyFloat lit_0_1] []) ;;
     ret tt)
    "ValueError"
    (fun _ => print "Run 2: 에러가 정상적으로 로깅되었습니다.").

(** *** Vocabulary of the further statements *)

Definition negative_price : string := "가격은 음수일 수 없습니다.".

(** A value of a built-in type, whose comparison and arithmetic are the
    interpreter's own; an instance of a class may bring its own. *)
Definition builtin_typed (v : pyval) : bool :=
  match v with
  | PyObject _ _ _ => false
  | _ => true
  end.

(** The two fields [emit] adds. *)
Definition sink_fields (now : datetime) (levelname : string) : pydict :=
  [("timestamp", PyDatetime now); ("level", PyStr levelname)].

(** The document stored for a record of [wrapper]: its seven fields, then
    the two of the sink. *)
Definition stored_record (f_name s_args s_kwargs s_result : string)
    (exception : option string) (st : string) (ms : spec_float)
    (now : datetime) (levelname : string) : pydict :=
  app (telemetry f_name s_args s_kwargs s_result exception st ms)
      (sink_fields now levelname).

(** The messages of the callables without [__name__]. *)
Definition no_name_message (type : string) : string :=
  "'" ++ type ++ "' object has no attribute '__name__'".

(** The level name of the record's call: ["INFO"] or ["ERROR"]. *)
Definition levelname_of (o : outcome pyexn pyval) : string :=
  getLevelName (level_of_status (status_of o)).

(** The report of [handleError] for a write that failed. *)
Definition report_if_failed (fault : option string) : list string :=
  match fault with
  | Some _ => ["--- Logging error ---"]
  | None => []
  end.

(** The document of a write, if the write succeeded. *)
Definition kept_if_stored (fault : option string) (d : pydict) : list pydict :=
  match fault with
  | Some _ => []
  | None => [d]
  end.
(** ** The model on known values *)

Example repr_tenth : Double.repr lit_0_1 = "0.1".
Proof. vm_compute. reflexivity. Qed.

Example repr_three_tenths :
  Double.repr (Double.add lit_0_1 (Double.of_ratio false 2 10))
  = "0.30000000000000004".
Proof. vm_compute. reflexivity. Qed.

Example repr_exponent : Double.repr (Double.of_Z (10 ^ 16)) = "1e+16".
Proof. vm_compute. reflexivity. Qed.

Example repr_small : Double.repr (Double.of_ratio false 15 100000000) = "1.5e-07".
Proof. vm_compute. reflexivity. Qed.

Example round_below_half :
  Double.repr (Double.round_ndigits (Double.of_ratio false 2675 1000) 2) = "2.67".
Proof. vm_compute. reflexivity. Qed.

Example round_tie_to_even :
  Double.repr (Double.round_ndigits (Double.of_ratio false 125 1000) 2) = "0.12".
Proof. vm_compute. reflexivity. Qed.

Example str_of_arguments :
  py_str (PyTuple [PyInt 1000; PyFloat lit_0_1]) = Returned "(1000, 0.1)".
Proof. vm_compute. reflexivity. Qed.

Example str_of_one_argument : py_str (PyTuple [PyStr "a"]) = Returned "('a',)".
Proof. vm_compute. reflexivity. Qed.

Example str_of_keywords :
  py_str (PyDict [("price", PyInt 5); ("tax_rate", PyNone)])
  = Returned "{'price': 5, 'tax_rate': None}".
Proof. vm_compute. reflexivity. Qed.

(** [repr] of a string keeps printable text and escapes the rest: here a
    no-break space, a next-line control and a zero-width space. *)
Example repr_of_printable_text : repr_str "가격 é" = "'가격 é'".
Proof. vm_compute. reflexivity. Qed.

Example repr_escapes_not_printable :
  repr_str (String (ascii_of_nat 194) (String (ascii_of_nat 160)
           (String (ascii_of_nat 194) (String (ascii_of_nat 133)
           (String (ascii_of_nat 226) (String (ascii_of_nat 128)
           (String (ascii_of_nat 139) EmptyString)))))))
  = "'\xa0\x85\u200b'".
Proof. vm_compute. reflexivity. Qed.

Example level_names :
  map getLevelName [CRITICAL; ERROR; WARNING; INFO; DEBUG; NOTSET; 25]
  = ["CRITICAL"; "ERROR"; "WARNING"; "INFO"; "DEBUG"; "NOTSET"; "Level 25"].
Proof. vm_compute. reflexivity. Qed.

Example construction_of_example :
  fst (init "mongodb://localhost" "app_logs" "function_traces"
            (example_world 0 false)) = Returned example_decorator.
Proof. vm_compute. reflexivity. Qed.

Example payment_of_1000 :
  calculate_payment_body (PyInt 1000) (PyFloat lit_0_1)
  = Returned (PyFloat (Double.of_Z 1100)).
Proof. vm_compute. reflexivity. Qed.

Example payment_of_negative_price :
  calculate_payment_body (PyInt (-100)) (PyFloat lit_0_1)
  = Raised (ValueError "가격은 음수일 수 없습니다.").
Proof. vm_compute. reflexivity. Qed.

Example payment_missing_argument :
  fst (fn_call calculate_payment [PyInt 1000] [] (example_world 0 false))
  = Raised (TypeError
      "calculate_payment() missing 1 required positional argument: 'tax_rate'").
Proof. vm_compute. reflexivity. Qed.

(** The second call of the example: the [ValueError] reaches the
    [except ValueError] of the caller. *)
Example run_2_catches_ValueError :
  fst (run_2 example_decorator (example_started false)) = Returned true.
Proof. vm_compute. reflexivity. Qed.

(** [KeyboardInterrupt] and [SystemExit] are outside [Exception]: the
    [except Exception] clause of [wrapper] lets them pass, and the record
    keeps the status it was initialised with. *)
Example base_exceptions_are_not_handled :
  exc_isinstance KeyboardInterrupt "Exception" = false /\
  exc_isinstance (SystemExit "1") "Exception" = false /\
  let w := snd (wrapper example_decorator (raising_fn "quit" (SystemExit "1"))
                  [] [] (example_started false)) in
  fst (wrapper example_decorator (raising_fn "quit" (SystemExit "1"))
         [] [] (example_started false)) = Raised (SystemExit "1") /\
  (dict_get "status" <$> documents (trace_collection "mongodb://localhost") w)
  = [Some (PyStr "success")].
Proof. repeat split; vm_compute; reflexivity. Qed.

(** ** The run of [wrapper] *)

Arguments py_str : simpl never.
Arguments py_repr : simpl never.
Arguments get_name : simpl never.
Arguments Logger_log : simpl never.
Arguments exc_isinstance : simpl never.
Arguments exc_str : simpl never.
Arguments elapsed_ms : simpl never.
Arguments Double.round_ndigits : simpl never.
Arguments Double.mul : simpl never.
Arguments Double.sub : simpl never.
Arguments Double.of_Z : simpl never.

Ltac finish_run :=
  change (py_str PyNone) with (@Returned pyexn string "None");
  unfold and_then, lift, after_time, reading, elapsed_ms, Logger_info,
    Logger_error, level_of_status, telemetry, opt_str;
  cbn;
  match goal with
  | |- context [Logger_log ?n ?l ?m ?w] =>
      destruct (Logger_log n l m w) as [[[] | ?] ?]
  end;
  reflexivity.

Lemma wrapper_run self func args kwargs w o w2 :
  fn_call func args kwargs (after_time w) = (o, w2) ->
  wrapper self func args kwargs w =
  match try_leaves o with
  | (res, exception, st, pending) =>
      match stringify func args kwargs res with
      | Raised e => (Raised e, after_time w2)
      | Returned (n, a, k, s) =>
          and_then
            (Logger_log (logger self) (level_of_status st)
               (PyDict (telemetry n a k s exception st
                          (elapsed_ms (reading w) (reading w2)))))
            pending (after_time w2)
      end
  end.
Proof.
  intros Hcall.
  unfold wrapper, bind at 1.
  change (time w) with (@Returned pyexn _ (reading w), after_time w); cbn iota beta.
  unfold with_frame, try_finally, try_except, bind at 1, lift at 1.
  cbn [snd fst]. rewrite Hcall.
  destruct o as [r | e]; cbn.
  - unfold stringify.
    destruct (get_name func) as [n | e]; cbn; [| reflexivity].
    destruct (py_str (PyTuple args)) as [a | e]; cbn; [| reflexivity].
    destruct (py_str (PyDict kwargs)) as [k | e]; cbn; [| reflexivity].
    destruct (py_str r) as [s | e]; cbn; [| reflexivity].
    finish_run.
  - destruct (exc_isinstance e "Exception"); cbn.
    + destruct (exc_str e) as [msg | e']; cbn;
        unfold stringify;
        (destruct (get_name func) as [n | e0]; cbn; [| reflexivity]);
        (destruct (py_str (PyTuple args)) as [a | e0]; cbn; [| reflexivity]);
        (destruct (py_str (PyDict kwargs)) as [k | e0]; cbn; [| reflexivity]);
        finish_run.
    + unfold stringify.
      destruct (get_name func) as [n | e0]; cbn; [| reflexivity].
      destruct (py_str (PyTuple args)) as [a | e0]; cbn; [| reflexivity].
      destruct (py_str (PyDict kwargs)) as [k | e0]; cbn; [| reflexivity].
      finish_run.
Qed.

(** ** Clocks, database and registry: how each step changes the world *)

Lemma emit_entry self name levelno levelname msg entry w :
  match msg with
  | PyDict d => entry = d
  | m => exists s, py_str m = Returned s /\ entry = [("message", PyStr s)]
  end ->
  emit self (mk_record name levelno levelname msg) w =
  (Returned tt, after_emit (h_collection self) entry levelname w).
Proof.
  intros Hmsg.
  unfold emit, try_except, after_emit, next_insert_fails, after_insert,
    after_now, log_entry_of, now_reading, after_report, handleError.
  cbn [rec_msg rec_levelname].
  destruct msg.
  all: cycle 6.
  { subst entry. unfold bind, ret, datetime_now, insert_one.
    cbn [fst snd insert_fault insert_calls].
    destruct (insert_fault w (insert_calls w)); reflexivity. }
  all: destruct Hmsg as (s' & Hs & ->);
    unfold bind, of_outcome, ret, datetime_now, insert_one; rewrite Hs;
    cbn [fst snd insert_fault insert_calls];
    destruct (insert_fault w (insert_calls w)); reflexivity.
Qed.

Lemma insert_calls_after_emit c entry levelname w :
  insert_calls (after_emit c entry levelname w) = S (insert_calls w).
Proof. unfold after_emit. destruct (next_insert_fails w); reflexivity. Qed.

Lemma loggers_after_emit c entry levelname w :
  loggers (after_emit c entry levelname w) = loggers w.
Proof. unfold after_emit. destruct (next_insert_fails w); reflexivity. Qed.

Lemma stderr_after_emit c entry levelname w :
  stderr (after_emit c entry levelname w) =
  if next_insert_fails w then app (stderr w) ["--- Logging error ---"] else stderr w.
Proof. unfold after_emit. destruct (next_insert_fails w); reflexivity. Qed.

Lemma collections_after_emit c entry levelname w :
  collections (after_emit c entry levelname w) =
  if next_insert_fails w then collections w
  else <[c := app (documents c w) [log_entry_of entry levelname w]]> (collections w).
Proof.
  unfold after_emit, next_insert_fails, after_insert, insert_one, after_now,
    after_report, datetime_now.
  cbn [snd fst insert_fault insert_calls collections].
  destruct (insert_fault w (insert_calls w)); reflexivity.
Qed.

Lemma documents_after_emit c' c entry levelname w :
  documents c' (after_emit c entry levelname w) =
  if next_insert_fails w then documents c' w
  else if decide (c' = c)
       then app (documents c w) [log_entry_of entry levelname w]
       else documents c' w.
Proof.
  unfold documents at 1. rewrite collections_after_emit.
  destruct (next_insert_fails w); [reflexivity |].
  destruct (decide (c' = c)) as [-> | Hne].
  - now rewrite lookup_insert_eq.
  - rewrite lookup_insert_ne by congruence. reflexivity.
Qed.

Lemma documents_after_emit_same c entry levelname w :
  next_insert_fails w = false ->
  documents c (after_emit c entry levelname w)
  = app (documents c w) [log_entry_of entry levelname w].
Proof.
  intros Hup. rewrite documents_after_emit, Hup. now rewrite decide_True.
Qed.

Lemma documents_after_emit_other c' c entry levelname w :
  c' <> c ->
  documents c' (after_emit c entry levelname w) = documents c' w.
Proof.
  intros Hne. rewrite documents_after_emit.
  destruct (next_insert_fails w); [reflexivity |]. now rewrite decide_False.
Qed.

(** *** The logger *)

Lemma call_each_dict_returns hs name levelno levelname d w :
  fst (call_each hs (mk_record name levelno levelname (PyDict d)) w) = Returned tt.
Proof.
  revert w. induction hs as [| h hs IH]; intros w; [reflexivity |].
  cbn [call_each rec_levelno]. unfold bind at 1.
  destruct (h_level h <=? levelno).
  - rewrite (emit_entry h name levelno levelname (PyDict d) d w eq_refl). apply IH.
  - cbn. apply IH.
Qed.

Lemma Logger_log_dict_returns name level d w :
  (exists s, py_str (PyDict d) = Returned s) ->
  fst (Logger_log name level (PyDict d) w) = Returned tt.
Proof.
  intros [s Hs]. unfold Logger_log, bind at 1, gets. cbn [fst snd].
  destruct (getEffectiveLevel (the_logger name w) <=? level); [| reflexivity].
  unfold callHandlers, bind at 1, gets.
  destruct (lg_handlers (the_logger name w)) as [| h hs] eqn:Hhs.
  - unfold lastResort. cbn [rec_levelno rec_msg].
    destruct (WARNING <=? level); [| reflexivity].
    unfold try_except, bind, of_outcome. rewrite Hs. reflexivity.
  - apply call_each_dict_returns.
Qed.

Lemma telemetry_str n a k s exception st ms :
  exists t, py_str (PyDict (telemetry n a k s exception st ms)) = Returned t.
Proof. destruct exception; eexists; reflexivity. Qed.

Lemma Logger_log_telemetry name level n a k s exception st ms w :
  fst (Logger_log name level (PyDict (telemetry n a k s exception st ms)) w)
  = Returned tt.
Proof. apply Logger_log_dict_returns, telemetry_str. Qed.

(** A logger with one handler passes an admitted record to it. *)
Lemma Logger_log_one name level msg entry w h :
  lg_handlers (the_logger name w) = [h] ->
  getEffectiveLevel (the_logger name w) <= level ->
  h_level h <= level ->
  match msg with
  | PyDict d => entry = d
  | m => exists s, py_str m = Returned s /\ entry = [("message", PyStr s)]
  end ->
  Logger_log name level msg w =
  (Returned tt, after_emit (h_collection h) entry (getLevelName level) w).
Proof.
  intros Hh Hlvl Hhl Hmsg.
  unfold Logger_log, bind at 1, gets. cbn [fst snd].
  apply Z.leb_le in Hlvl. rewrite Hlvl.
  unfold callHandlers, bind at 1, gets. rewrite Hh.
  cbn [call_each rec_levelno]. apply Z.leb_le in Hhl. rewrite Hhl.
  unfold bind. rewrite (emit_entry h name level _ msg entry w Hmsg). reflexivity.
Qed.

(** *** The constructor *)

Lemma getLogger_run name w :
  getLogger name w =
  (Returned name,
   with_loggers
     (match loggers w !! name with
      | Some _ => loggers w
      | None => <[name := new_logger]> (loggers w)
      end) w).
Proof. reflexivity. Qed.

Lemma setLevel_run name level w :
  setLevel name level w =
  (Returned tt,
   with_loggers
     (<[name := mk_logger level (lg_handlers (the_logger name w))]> (loggers w)) w).
Proof. reflexivity. Qed.

Lemma addHandler_run name hdlr w :
  addHandler name hdlr w =
  (Returned tt,
   with_loggers
     (<[name := mk_logger (lg_level (the_logger name w))
                          (app (lg_handlers (the_logger name w)) [hdlr])]>
        (loggers w)) w).
Proof. reflexivity. Qed.

Lemma with_loggers_twice a b w :
  with_loggers a (with_loggers b w) = with_loggers a w.
Proof. reflexivity. Qed.

Lemma loggers_with_loggers a w : loggers (with_loggers a w) = a.
Proof. reflexivity. Qed.

Lemma the_logger_with_loggers name a w :
  the_logger name (with_loggers a w) = default new_logger (a !! name).
Proof. reflexivity. Qed.

Lemma the_logger_inserted name lg ls w :
  the_logger name (with_loggers (<[name := lg]> ls) w) = lg.
Proof. rewrite the_logger_with_loggers, lookup_insert_eq. reflexivity. Qed.

Lemma init_run conn db_name coll w :
  init conn db_name coll w =
  (Returned (mk_decorator conn (conn, db_name) (conn, db_name, coll) "MongoDBLogger"),
   with_loggers
     (<["MongoDBLogger" := mk_logger DEBUG (registered (conn, db_name, coll) w)]>
        (loggers w)) w).
Proof.
  unfold init, registered.
  unfold bind at 1. rewrite getLogger_run.
  unfold bind at 1. rewrite setLevel_run.
  rewrite with_loggers_twice, loggers_with_loggers.
  unfold bind at 1, gets. cbn [fst snd].
  rewrite the_logger_inserted. cbn [lg_handlers].
  assert (Hh : lg_handlers
                 (the_logger "MongoDBLogger"
                    (with_loggers
                       match loggers w !! "MongoDBLogger" with
                       | Some _ => loggers w
                       | None => <["MongoDBLogger":=new_logger]> (loggers w)
                       end w))
               = lg_handlers (the_logger "MongoDBLogger" w)).
  { rewrite the_logger_with_loggers. unfold the_logger.
    destruct (loggers w !! "MongoDBLogger") as [lg |] eqn:Hlg.
    - now rewrite Hlg.
    - now rewrite lookup_insert_eq. }
  rewrite Hh.
  assert (Hi : forall lg,
             <["MongoDBLogger" := lg]>
               match loggers w !! "MongoDBLogger" with
               | Some _ => loggers w
               | None => <["MongoDBLogger":=new_logger]> (loggers w)
               end
             = <["MongoDBLogger" := lg]> (loggers w)).
  { intros lg. destruct (loggers w !! "MongoDBLogger"); [reflexivity |].
    apply insert_insert_eq. }
  rewrite Hi.
  destruct (lg_handlers (the_logger "MongoDBLogger" w)) as [| h hs].
  - unfold bind, ret. rewrite addHandler_run.
    rewrite with_loggers_twice, loggers_with_loggers, the_logger_inserted.
    cbn [lg_level lg_handlers app]. rewrite insert_insert_eq. reflexivity.
  - reflexivity.
Qed.

(** ** Doubles: the sign of a difference, a product and a rounding *)

Lemma not_negative_nonneg x : not_negative x -> Double.nonneg x = true.
Proof. destruct x as [s | s | | s m e]; cbn; try (intros ->); easy. Qed.

Lemma digits2_pos_bounds m :
  2 ^ (Z.pos (digits2_pos m) - 1) <= Z.pos m < 2 ^ Z.pos (digits2_pos m).
Proof.
  induction m as [m IH | m IH |]; cbn [digits2_pos].
  - rewrite Pos2Z.inj_succ, (Pos2Z.inj_xI m).
    replace (Z.succ (Z.pos (digits2_pos m)) - 1) with (Z.succ (Z.pos (digits2_pos m) - 1)) by lia.
    rewrite !Z.pow_succ_r by lia.
    revert IH. generalize (2 ^ (Z.pos (digits2_pos m) - 1)) (2 ^ Z.pos (digits2_pos m)). lia.
  - rewrite Pos2Z.inj_succ, (Pos2Z.inj_xO m).
    replace (Z.succ (Z.pos (digits2_pos m)) - 1) with (Z.succ (Z.pos (digits2_pos m) - 1)) by lia.
    rewrite !Z.pow_succ_r by lia.
    revert IH. generalize (2 ^ (Z.pos (digits2_pos m) - 1)) (2 ^ Z.pos (digits2_pos m)). lia.
  - cbn. lia.
Qed.

Lemma iter_xO_value m d : Z.pos (Pos.iter xO m d) = Z.pos m * 2 ^ Z.pos d.
Proof.
  induction d as [| d IH] using Pos.peano_ind.
  - cbn. lia.
  - rewrite Pos.iter_succ, (Pos2Z.inj_xO (Pos.iter xO m d)), IH, Pos2Z.inj_succ, Z.pow_succ_r by lia. lia.
Qed.

Lemma shl_align_value mx ex ez :
  ez <= ex -> Z.pos (fst (shl_align mx ex ez)) = Z.pos mx * 2 ^ (ex - ez).
Proof.
  intros Hle. unfold shl_align.
  destruct (ez - ex) as [| d | d] eqn:E; cbn [fst].
  - replace (ex - ez) with 0 by lia. cbn. lia.
  - lia.
  - rewrite iter_xO_value. f_equal. f_equal. lia.
Qed.

Lemma iter_pos_invariant {A : Type} (P : A -> Prop) (f : A -> A) :
  (forall x, P x -> P (f x)) -> forall p x, P x -> P (SpecFloat.iter_pos f p x).
Proof.
  intros Hf. induction p as [p IH | p IH |]; intros x Hx; cbn; auto.
Qed.

Lemma shr_1_nonneg mrs : 0 <= shr_m mrs -> 0 <= shr_m (shr_1 mrs).
Proof.
  destruct mrs as [m r s]. cbn [shr_m]. intros Hm.
  destruct m as [| p | p]; [cbn; lia | | lia].
  destruct p; cbn; lia.
Qed.

Lemma shr_fexp_nonneg m e l :
  0 <= m -> 0 <= shr_m (fst (shr_fexp Double.prec Double.emax m e l)).
Proof.
  intros Hm. unfold shr_fexp, shr.
  assert (H0 : 0 <= shr_m (shr_record_of_loc m l)).
  { destruct l as [| []]; exact Hm. }
  destruct (fexp _ _ _ - e) as [| p | p]; cbn [fst]; try exact H0.
  apply (iter_pos_invariant (fun mrs => 0 <= shr_m mrs)); [apply shr_1_nonneg | exact H0].
Qed.

Lemma round_nearest_even_nonneg m l : 0 <= m -> 0 <= round_nearest_even m l.
Proof.
  intros Hm. destruct l as [| []]; cbn; try lia.
  destruct (Z.even m); lia.
Qed.

(** Rounding a non-negative mantissa gives a zero, a finite double or an
    infinity of the sign asked for. *)
Lemma binary_round_aux_sign s m e l :
  0 <= m ->
  match binary_round_aux Double.prec Double.emax s m e l with
  | S754_zero s' | S754_infinity s' | S754_finite s' _ _ => s' = s
  | S754_nan => False
  end.
Proof.
  intros Hm. unfold binary_round_aux.
  pose proof (shr_fexp_nonneg m e l Hm) as H1.
  destruct (shr_fexp Double.prec Double.emax m e l) as [mrs' e'].
  cbn [fst] in H1.
  pose proof (shr_fexp_nonneg
                (round_nearest_even (shr_m mrs') (loc_of_shr_record mrs')) e' loc_Exact
                (round_nearest_even_nonneg _ _ H1)) as H2.
  destruct (shr_fexp Double.prec Double.emax _ e' loc_Exact) as [mrs'' e''].
  cbn [fst] in H2.
  destruct (shr_m mrs'') as [| p | p]; [reflexivity | | lia].
  destruct (e'' <=? Double.emax - Double.prec); reflexivity.
Qed.

Lemma binary_round_aux_not_negative m e l :
  0 <= m -> not_negative (binary_round_aux Double.prec Double.emax false m e l).
Proof.
  intros Hm. pose proof (binary_round_aux_sign false m e l Hm) as H.
  destruct (binary_round_aux _ _ _ _ _ _); cbn; auto.
Qed.

Lemma binary_normalize_not_negative z e :
  0 <= z -> not_negative (binary_normalize Double.prec Double.emax z e false).
Proof.
  intros Hz. destruct z as [| p | p]; [exact I | | lia].
  cbn [binary_normalize]. unfold binary_round.
  destruct (shl_align _ _ _) as [mz ez].
  apply binary_round_aux_not_negative. lia.
Qed.

Lemma mul_1000_not_negative x :
  not_negative x -> not_negative (Double.mul x (Double.of_Z 1000)).
Proof.
  change (Double.of_Z 1000) with (S754_finite false 8796093022208000 (-43)).
  destruct x as [s | s | | s m e]; cbn [not_negative]; try easy.
  - intros ->. reflexivity.
  - intros ->. unfold Double.mul, SFmul. cbn [xorb].
    apply binary_round_aux_not_negative. lia.
Qed.

Lemma of_ratio_not_negative n d : not_negative (Double.of_ratio false n d).
Proof.
  unfold Double.of_ratio, Double.div, SFdiv, SFdiv_core_binary.
  cbn [xorb].
  set (m' := match _ with Z.pos _ => _ | _ => _ end).
  assert (Hm' : 0 <= m').
  { unfold m'. destruct (_ - _ - _) as [| p | p]; try lia.
    rewrite Z.shiftl_mul_pow2 by lia. lia. }
  pose proof (Z_div_mod m' (Z.pos d) ltac:(lia)) as Hdiv.
  destruct (Z.div_eucl m' (Z.pos d)) as [q r].
  apply binary_round_aux_not_negative. nia.
Qed.

Lemma bounded_digits m e :
  bounded Double.prec Double.emax m e = true ->
  -1074 <= e /\ Z.pos (digits2_pos m) <= 53 /\
  (-1074 < e -> Z.pos (digits2_pos m) = 53).
Proof.
  unfold bounded, canonical_mantissa, fexp, emin, Double.prec, Double.emax.
  intros H. apply andb_prop in H as [H _]. apply Z.eqb_eq in H. lia.
Qed.

(** Of two canonical doubles the one with the larger exponent, or with the
    same exponent and the larger mantissa, has the larger aligned
    mantissa. *)
Lemma aligned_le mx ex my ey :
  bounded Double.prec Double.emax mx ex = true ->
  bounded Double.prec Double.emax my ey = true ->
  ey < ex \/ (ey = ex /\ Z.pos my <= Z.pos mx) ->
  Z.pos (fst (shl_align my ey (Z.min ex ey)))
  <= Z.pos (fst (shl_align mx ex (Z.min ex ey))).
Proof.
  intros Hx Hy Hord.
  rewrite !shl_align_value by lia.
  destruct Hord as [Hlt | [-> Hle]].
  - replace (Z.min ex ey) with ey by lia.
    replace (ey - ey) with 0 by lia. rewrite Z.pow_0_r, Z.mul_1_r.
    destruct (bounded_digits mx ex Hx) as (_ & _ & Hdx).
    destruct (bounded_digits my ey Hy) as (Hey & Hdy & _).
    specialize (Hdx ltac:(lia)).
    pose proof (digits2_pos_bounds mx) as Bx. rewrite Hdx in Bx.
    pose proof (digits2_pos_bounds my) as By.
    assert (Hy53 : Z.pos my < 2 ^ 53).
    { eapply Z.lt_le_trans; [apply By |]. apply Z.pow_le_mono_r; lia. }
    assert (Hp : 2 ^ 1 <= 2 ^ (ex - ey)) by (apply Z.pow_le_mono_r; lia).
    change (2 ^ (53 - 1)) with 4503599627370496 in Bx.
    change (2 ^ 53) with 9007199254740992 in Hy53.
    change (2 ^ 1) with 2 in Hp. nia.
  - replace (Z.min ex ex) with ex by lia.
    replace (ex - ex) with 0 by lia. rewrite Z.pow_0_r. lia.
Qed.

Ltac aligned_lia :=
  repeat match goal with
         | |- context [Z.pos (fst (shl_align ?m ?e ?z))] =>
             let a := fresh "a" in
             set (a := fst (shl_align m e z)) in *; clearbody a
         end;
  lia.

Lemma sub_not_negative t0 t1 :
  clock_reading t0 -> clock_reading t1 ->
  Double.leb t0 t1 = true ->
  not_negative (Double.sub t1 t0).
Proof.
  intros [F0 V0] [F1 V1] Hle.
  destruct t0 as [s0 | s0 | | s0 m0 e0]; try discriminate;
    destruct t1 as [s1 | s1 | | s1 m1 e1]; try discriminate.
  - destruct s1, s0; exact I.
  - destruct s1; [discriminate | reflexivity].
  - destruct s0; [reflexivity | discriminate].
  - cbn [valid_binary] in V0, V1.
    unfold Double.sub, SFsub. apply binary_normalize_not_negative.
    unfold Double.leb, SFleb, SFcompare in Hle.
    destruct s0, s1; cbn [cond_Zopp].
    + (* both negative *)
      rewrite Z.min_comm.
      pose proof (aligned_le m0 e0 m1 e1 V0 V1) as H.
      destruct (e0 ?= e1) eqn:E; try discriminate Hle.
      * apply Z.compare_eq in E.
        destruct (Pos.compare_cont Eq m0 m1) eqn:C; try discriminate Hle.
        -- apply Pos.compare_eq in C. subst. aligned_lia.
        -- change (Pos.compare_cont Eq m0 m1) with (Pos.compare m0 m1) in C.
           apply Pos.compare_gt_iff, Pos2Z.pos_lt_pos in C.
           specialize (H ltac:(lia)). aligned_lia.
      * apply Z.compare_gt_iff in E. specialize (H ltac:(lia)). aligned_lia.
    + (* t0 negative, t1 positive *) aligned_lia.
    + (* t0 positive, t1 negative *) discriminate Hle.
    + (* both positive *)
      pose proof (aligned_le m1 e1 m0 e0 V1 V0) as H.
      destruct (e0 ?= e1) eqn:E; try discriminate Hle.
      * apply Z.compare_eq in E.
        destruct (Pos.compare_cont Eq m0 m1) eqn:C; try discriminate Hle.
        -- apply Pos.compare_eq in C. subst. aligned_lia.
        -- change (Pos.compare_cont Eq m0 m1) with (Pos.compare m0 m1) in C.
           apply Pos.compare_lt_iff, Pos2Z.pos_lt_pos in C.
           specialize (H ltac:(lia)). aligned_lia.
      * change (e0 < e1) in E. specialize (H ltac:(lia)). aligned_lia.
Qed.

Lemma round_ndigits_not_negative x n :
  not_negative x -> not_negative (Double.round_ndigits x n).
Proof.
  destruct x as [s | s | | s m e]; unfold Double.round_ndigits;
    cbn [not_negative]; try easy.
  intros ->.
  match goal with
  | |- context [Double.round_half_even ?a ?b] =>
      destruct (Double.round_half_even a b)
  end; [exact I | apply of_ratio_not_negative | exact I].
Qed.

(** When the clock has not gone back between the two readings, the
    duration recorded is not negative. *)
Lemma elapsed_ms_nonneg t0 t1 :
  clock_reading t0 -> clock_reading t1 ->
  Double.leb t0 t1 = true ->
  Double.nonneg (elapsed_ms t0 t1) = true.
Proof.
  intros H0 H1 Hle. apply not_negative_nonneg. unfold elapsed_ms.
  apply round_ndigits_not_negative, mul_1000_not_negative.
  now apply sub_not_negative.
Qed.

(** ** Dictionaries *)


Lemma dict_get_set_ne k k' v d :
  k' <> k -> dict_get k' (dict_set k v d) = dict_get k' d.
Proof.
  intros Hne. induction d as [| [k0 v0] d IH]; cbn.
  - destruct (String.eqb k' k) eqn:E; [| reflexivity].
    apply String.eqb_eq in E. contradiction.
  - destruct (String.eqb k k0) eqn:E; cbn.
    + apply String.eqb_eq in E. subst k0.
      destruct (String.eqb k' k) eqn:E'; [| reflexivity].
      apply String.eqb_eq in E'. contradiction.
    + destruct (String.eqb k' k0); [reflexivity | exact IH].
Qed.



Lemma log_entry_other k entry levelname w :
  k <> "timestamp" -> k <> "level" ->
  dict_get k (log_entry_of entry levelname w) = dict_get k entry.
Proof.
  intros H1 H2. unfold log_entry_of, dict_update. cbn [fold_left fst snd].
  rewrite !dict_get_set_ne by assumption. reflexivity.
Qed.

(** ** The sink *)



(** ** The wrapper and the call's outcome *)

Lemma stringify_result_local func args kwargs o strs :
  stringify func args kwargs (result_local o) = Returned strs ->
  match try_leaves o with
  | (res, _, _, _) => stringify func args kwargs res = Returned strs
  end.
Proof.
  intros H. destruct o as [r | e]; cbn [try_leaves result_local] in *; [exact H |].
  destruct (exc_isinstance e "Exception"); [destruct (exc_str e) |]; exact H.
Qed.

Lemma try_leaves_pending o :
  handled_message_returns o ->
  match try_leaves o with
  | (_, _, _, pending) => pending = o
  end.
Proof.
  intros Hmsg. destruct o as [r | e]; cbn [try_leaves]; [reflexivity |].
  destruct (exc_isinstance e "Exception") eqn:He; [| reflexivity].
  destruct (Hmsg e eq_refl He) as [msg ->]. reflexivity.
Qed.


(** C2, as amended.  Provided the strings of the record can be made
    ([func.__name__], [str(args)], [str(kwargs)], [str(result)] return, and
    so does [str(e)] for an exception the [except] clause handles), the
    wrapper hands the record to the logger, at the level of the status, and
    that call returns; the caller then gets exactly what the wrapped
    callable produced, the same value returned or the same exception
    raised, in the world the logger's call left.  When making one of the
    strings raises in the [finally] block, that exception reaches the
    caller instead. *)
Theorem wrapper_passes_outcome_on self func args kwargs w o w2 :
  fn_call func args kwargs (after_time w) = (o, w2) ->
  match stringify func args kwargs (result_local o) with
  | Returned (n, a, k, s) =>
      handled_message_returns o ->
      let record :=
        telemetry n a k s (exception_of o) (status_of o)
                  (elapsed_ms (reading w) (reading w2)) in
      let logged :=
        Logger_log (logger self) (level_of_status (status_of o))
                   (PyDict record) (after_time w2) in
      fst logged = Returned tt /\
      wrapper self func args kwargs w = (o, snd logged)
  | Raised e' =>
      wrapper self func args kwargs w = (Raised e', after_time w2)
  end.
Proof.
  intros Hcall.
  rewrite (wrapper_run self func args kwargs w o w2 Hcall).
  unfold exception_of, status_of.
  destruct (stringify func args kwargs (result_local o))
    as [[[[n a] k] s] | e'] eqn:Hstr.
  - intros Hmsg.
    pose proof (stringify_result_local func args kwargs o _ Hstr) as Hs.
    pose proof (try_leaves_pending o Hmsg) as Hp.
    destruct (try_leaves o) as [[[res exception] st] pending].
    cbn [fst snd]. rewrite Hs. subst pending.
    pose proof (Logger_log_telemetry (logger self) (level_of_status st) n a k s
                  exception st (elapsed_ms (reading w) (reading w2))
                  (after_time w2)) as Hl.
    split; [exact Hl |].
    unfold and_then.
    destruct (Logger_log _ _ _ _) as [lo w4]. cbn [fst snd] in *.
    rewrite Hl. reflexivity.
  - destruct o as [r | e]; cbn [try_leaves result_local] in *.
    + rewrite Hstr. reflexivity.
    + destruct (exc_isinstance e "Exception"); [destruct (exc_str e) |];
        rewrite Hstr; reflexivity.
Qed.

Lemma handled_message_returns_builtin cls msg :
  handled_message_returns (Raised (builtin_exn cls msg)).
Proof. intros e [= <-] _. exists msg. reflexivity. Qed.

Lemma handled_message_returns_value r : handled_message_returns (Returned r).
Proof. intros e [=]. Qed.

Lemma wrapper_passes_outcome_on_witness :
  let w := example_started false in
  let args := [PyInt (-100); PyFloat lit_0_1] in
  let o := Raised (ValueError "가격은 음수일 수 없습니다.") in
  let record :=
    telemetry "calculate_payment" "(-100, 0.1)" "{}" "None"
              (Some "가격은 음수일 수 없습니다.") "error"
              (elapsed_ms (reading w) (reading (after_time w))) in
  let logged :=
    Logger_log (logger example_decorator) ERROR (PyDict record)
               (after_time (after_time w)) in
  fst logged = Returned tt /\
  wrapper example_decorator calculate_payment args [] w = (o, snd logged).
Proof.
  exact (wrapper_passes_outcome_on example_decorator calculate_payment
           [PyInt (-100); PyFloat lit_0_1] [] (example_started false)
           (Raised (ValueError "가격은 음수일 수 없습니다."))
           (after_time (example_started false))
           eq_refl
           (handled_message_returns_builtin "ValueError" "가격은 음수일 수 없습니다.")).
Defined.

(** C2 as stated fails: [calculate_payment(-100, rate)] raises [ValueError],
    but when [repr(rate)] raises, the wrapped call raises that exception
    instead. *)
Lemma wrapper_replaces_exception_counterexample :
  let w := example_started false in
  let args := [PyInt (-100); unprintable] in
  fst (fn_call calculate_payment args [] (after_time w))
  = Raised (ValueError "가격은 음수일 수 없습니다.") /\
  fst (fn_call (call example_decorator calculate_payment) args [] w)
  = Raised (RuntimeError "no representation").
Proof. split; vm_compute; reflexivity. Qed.

(** ** Stringification *)

Lemma try_leaves_result o :
  match try_leaves o with
  | (res, _, _, _) => res = result_local o
  end.
Proof.
  destruct o as [r | e]; cbn [try_leaves result_local]; [reflexivity |].
  destruct (exc_isinstance e "Exception"); [destruct (exc_str e) |]; reflexivity.
Qed.

(** C4, as amended.  Stringification is not guarded.  When the four strings
    of the record can be made they are the record's fields as made; when
    making one raises, that exception leaves the wrapper in place of the
    call's own return or exception, straight after the second reading of
    the clock: nothing has gone to the logger and nothing is stored. *)
Theorem stringification_failure_leaves_wrapper self func args kwargs w o w2 :
  fn_call func args kwargs (after_time w) = (o, w2) ->
  match stringify func args kwargs (result_local o) with
  | Raised e =>
      wrapper self func args kwargs w = (Raised e, after_time w2)
  | Returned (n, a, k, s) =>
      exists exception st pending,
        wrapper self func args kwargs w =
        and_then
          (Logger_log (logger self) (level_of_status st)
             (PyDict (telemetry n a k s exception st
                        (elapsed_ms (reading w) (reading w2)))))
          pending (after_time w2)
  end.
Proof.
  intros Hcall.
  rewrite (wrapper_run self func args kwargs w o w2 Hcall).
  pose proof (try_leaves_result o) as Hres.
  destruct (try_leaves o) as [[[res exception] st] pending]. subst res.
  destruct (stringify func args kwargs (result_local o)) as [[[[n a] k] s] | e].
  - exists exception, st, pending. reflexivity.
  - reflexivity.
Qed.

Lemma stringification_failure_leaves_wrapper_witness :
  let w := example_started false in
  wrapper example_decorator (constant_fn "describe" (PyInt 5)) [unprintable] [] w
  = (Raised (RuntimeError "no representation"), after_time (after_time w)).
Proof.
  exact (stringification_failure_leaves_wrapper example_decorator
           (constant_fn "describe" (PyInt 5)) [unprintable] []
           (example_started false) (Returned (PyInt 5))
           (after_time (example_started false)) eq_refl).
Defined.

(** C4 as stated fails: a function that returns [5] is called with an
    argument whose [repr] raises; the wrapped call raises that exception
    to the caller, and no record with a placeholder is stored. *)
Lemma stringification_aborts_call_counterexample :
  let w := example_started false in
  let func := constant_fn "describe" (PyInt 5) in
  fst (fn_call func [unprintable] [] (after_time w)) = Returned (PyInt 5) /\
  fst (fn_call (call example_decorator func) [unprintable] [] w)
  = Raised (RuntimeError "no representation") /\
  documents (trace_collection "mongodb://localhost")
            (snd (fn_call (call example_decorator func) [unprintable] [] w)) = [].
Proof. repeat split; vm_compute; reflexivity. Qed.

(** ** One record per call, at the severity of the outcome *)




(** ** The fields [result] and [exception] *)





(** ** Failures of the database *)




(** ** The example run *)

Lemma the_logger_after_time name w :
  the_logger name (after_time w) = the_logger name w.
Proof. reflexivity. Qed.

(** C5.  In a process that has just started and whose first write to the
    database succeeds, constructing the decorator, decorating
    [calculate_payment] and calling it with [(1000, 0.1)] returns the float
    [1100.0] to the caller, and the database then holds exactly one
    document, in the decorator's collection, with status ["success"],
    result ["1100.0"] and function ["calculate_payment"]. *)
Theorem scenario_A_one_success_record conn ts ns faults :
  faults 0%nat = None ->
  let w0 := fresh_world ts ns faults in
  fst (run_1 conn w0) = Returned (PyFloat (Double.of_Z 1100)) /\
  py_str (PyFloat (Double.of_Z 1100)) = Returned "1100.0" /\
  exists d,
    collections (snd (run_1 conn w0)) = {[trace_collection conn := [d]]} /\
    dict_get "status" d = Some (PyStr "success") /\
    dict_get "result" d = Some (PyStr "1100.0") /\
    dict_get "function" d = Some (PyStr "calculate_payment").
Proof.
  intros Hup w0.
  set (c := trace_collection conn).
  set (d := mk_decorator conn (conn, "app_logs") c "MongoDBLogger").
  set (w1 := with_loggers
               (<["MongoDBLogger" := mk_logger DEBUG (registered c w0)]> (loggers w0)) w0).
  assert (Hrun : run_1 conn w0 =
                 wrapper d calculate_payment [PyInt 1000; PyFloat lit_0_1] [] w1).
  { unfold run_1, bind. rewrite init_run. reflexivity. }
  rewrite Hrun.
  rewrite (wrapper_run d calculate_payment [PyInt 1000; PyFloat lit_0_1] [] w1
             (Returned (PyFloat (Double.of_Z 1100))) (after_time w1) eq_refl).
  cbn [try_leaves].
  change (stringify calculate_payment [PyInt 1000; PyFloat lit_0_1] []
            (PyFloat (Double.of_Z 1100)))
    with (@Returned pyexn _ ("calculate_payment", "(1000, 0.1)", "{}", "1100.0")).
  cbv beta iota. unfold and_then.
  set (rec := telemetry _ _ _ _ _ _ _).
  assert (Hlg : the_logger "MongoDBLogger" (after_time (after_time w1))
                = mk_logger DEBUG [MongoDBHandler NOTSET c]).
  { rewrite !the_logger_after_time. unfold w1. now rewrite the_logger_inserted. }
  rewrite (Logger_log_one (logger d) (level_of_status "success") (PyDict rec) rec
             (after_time (after_time w1)) (MongoDBHandler NOTSET c));
    cbn [logger d]; rewrite ?Hlg;
    [| reflexivity | discriminate | discriminate | reflexivity].
  cbn [fst snd h_collection].
  split; [reflexivity |].
  split; [reflexivity |].
  eexists. split; [| split; [| split]].
  - rewrite collections_after_emit.
    assert (Hf : next_insert_fails (after_time (after_time w1)) = false).
    { unfold next_insert_fails. cbn. now rewrite Hup. }
    rewrite Hf. apply insert_empty.
  - now rewrite log_entry_other by discriminate.
  - now rewrite log_entry_other by discriminate.
  - now rewrite log_entry_other by discriminate.
Qed.

Lemma scenario_A_one_success_record_witness :
  let w0 := example_world 0 false in
  fst (run_1 "mongodb://localhost" w0) = Returned (PyFloat (Double.of_Z 1100)) /\
  py_str (PyFloat (Double.of_Z 1100)) = Returned "1100.0" /\
  exists d,
    collections (snd (run_1 "mongodb://localhost" w0))
    = {[trace_collection "mongodb://localhost" := [d]]} /\
    dict_get "status" d = Some (PyStr "success") /\
    dict_get "result" d = Some (PyStr "1100.0") /\
    dict_get "function" d = Some (PyStr "calculate_payment").
Proof.
  exact (scenario_A_one_success_record "mongodb://localhost"
           (fun n => Double.of_Z (0 + Z.of_nat n))
           (fun n => mk_datetime 2025 1 1 0 0 0 (Z.of_nat n))
           (fun _ => None) eq_refl).
Defined.

(** ** Registration of the handler *)

Lemma the_logger_after_init conn db_name coll w :
  the_logger "MongoDBLogger" (snd (init conn db_name coll w))
  = mk_logger DEBUG (registered (conn, db_name, coll) w).
Proof. rewrite init_run. cbn [snd]. apply the_logger_inserted. Qed.

Lemma registered_of_nonempty c w :
  lg_handlers (the_logger "MongoDBLogger" w) <> [] ->
  registered c w = lg_handlers (the_logger "MongoDBLogger" w).
Proof.
  unfold registered.
  destruct (lg_handlers (the_logger "MongoDBLogger" w)); [contradiction | reflexivity].
Qed.


Lemma init_times_keeps_handlers n conn db_name coll w :
  lg_handlers (the_logger "MongoDBLogger" w) <> [] ->
  lg_level (the_logger "MongoDBLogger" w) = DEBUG ->
  the_logger "MongoDBLogger" (snd (init_times n conn db_name coll w))
  = the_logger "MongoDBLogger" w.
Proof.
  revert w. induction n as [| n IH]; intros w Hne Hlvl; [reflexivity |].
  cbn [init_times]. unfold bind. rewrite init_run.
  set (w1 := with_loggers _ w).
  assert (H1 : the_logger "MongoDBLogger" w1 = the_logger "MongoDBLogger" w).
  { unfold w1. rewrite the_logger_inserted, registered_of_nonempty by assumption.
    rewrite <- Hlvl. now destruct (the_logger "MongoDBLogger" w). }
  rewrite IH; rewrite H1; auto.
Qed.

Lemma init_times_registers n conn db_name coll w :
  (1 <= n)%nat ->
  lg_handlers (the_logger "MongoDBLogger" w) = [] ->
  the_logger "MongoDBLogger" (snd (init_times n conn db_name coll w))
  = mk_logger DEBUG [MongoDBHandler NOTSET (conn, db_name, coll)].
Proof.
  intros Hn Hnone. destruct n as [| n]; [lia |].
  cbn [init_times]. unfold bind.
  pose proof (the_logger_after_init conn db_name coll w) as H1.
  destruct (init conn db_name coll w) as [[dec | e] w1] eqn:Hinit.
  - cbn [snd] in H1. unfold registered in H1. rewrite Hnone in H1.
    rewrite init_times_keeps_handlers; rewrite H1; [reflexivity | discriminate | reflexivity].
  - rewrite init_run in Hinit. discriminate.
Qed.

(** C6.  Starting from a logger without handlers, constructing the decorator
    [n >= 1] times with one configuration leaves exactly one handler on the
    shared logger, and every record then logged at [DEBUG] or above makes
    exactly one call of [insert_one], which on success adds exactly one
    document to the collection, whatever [n] is. *)
Theorem repeated_construction_registers_once n conn db_name coll w level d :
  (1 <= n)%nat ->
  lg_handlers (the_logger "MongoDBLogger" w) = [] ->
  DEBUG <= level ->
  let c := (conn, db_name, coll) in
  let w' := snd (init_times n conn db_name coll w) in
  let w'' := snd (Logger_log "MongoDBLogger" level (PyDict d) w') in
  lg_handlers (the_logger "MongoDBLogger" w') = [MongoDBHandler NOTSET c] /\
  insert_calls w'' = S (insert_calls w') /\
  (next_insert_fails w' = false ->
   documents c w'' = app (documents c w') [log_entry_of d (getLevelName level) w']).
Proof.
  intros Hn Hnone Hlevel c w' w''.
  pose proof (init_times_registers n conn db_name coll w Hn Hnone) as Hlg.
  fold w' in Hlg. fold c in Hlg.
  assert (Hrun : Logger_log "MongoDBLogger" level (PyDict d) w'
                 = (Returned tt, after_emit c d (getLevelName level) w')).
  { apply (Logger_log_one "MongoDBLogger" level (PyDict d) d w'
             (MongoDBHandler NOTSET c)); rewrite ?Hlg;
      [reflexivity | exact Hlevel | | reflexivity].
    cbn [h_level]. unfold DEBUG, NOTSET in *. lia. }
  unfold w''. rewrite Hrun. cbn [snd].
  split; [now rewrite Hlg |].
  split; [apply insert_calls_after_emit |].
  intros Hup. now apply documents_after_emit_same.
Qed.

Lemma repeated_construction_registers_once_witness :
  let c := trace_collection "mongodb://localhost" in
  let w' := snd (init_times 3 "mongodb://localhost" "app_logs" "function_traces"
                   (example_world 0 false)) in
  let d := [("function", PyStr "f")] in
  let w'' := snd (Logger_log "MongoDBLogger" INFO (PyDict d) w') in
  lg_handlers (the_logger "MongoDBLogger" w') = [MongoDBHandler NOTSET c] /\
  insert_calls w'' = S (insert_calls w') /\
  (next_insert_fails w' = false ->
   documents c w'' = app (documents c w') [log_entry_of d (getLevelName INFO) w']).
Proof.
  refine (repeated_construction_registers_once 3 "mongodb://localhost" "app_logs"
            "function_traces" (example_world 0 false) INFO
            [("function", PyStr "f")] _ eq_refl _).
  - lia.
  - discriminate.
Defined.

(** ** A second decorator with another configuration *)

(** The run of a wrapped call when the logger has one handler at the
    levels the constructor sets. *)
Lemma wrapper_one_handler self func args kwargs w o w2 n a k s c :
  fn_call func args kwargs (after_time w) = (o, w2) ->
  stringify func args kwargs (result_local o) = Returned (n, a, k, s) ->
  handled_message_returns o ->
  the_logger (logger self) w2 = mk_logger DEBUG [MongoDBHandler NOTSET c] ->
  exists exception st,
    wrapper self func args kwargs w =
    (o, after_emit c
          (telemetry n a k s exception st (elapsed_ms (reading w) (reading w2)))
          (getLevelName (level_of_status st)) (after_time w2)).
Proof.
  intros Hcall Hstr Hmsg Hlg.
  rewrite (wrapper_run self func args kwargs w o w2 Hcall).
  pose proof (stringify_result_local func args kwargs o _ Hstr) as Hs.
  pose proof (try_leaves_pending o Hmsg) as Hp.
  destruct (try_leaves o) as [[[res exception] st] pending].
  rewrite Hs. subst pending. exists exception, st.
  unfold and_then.
  rewrite (Logger_log_one (logger self) (level_of_status st) _
             (telemetry n a k s exception st (elapsed_ms (reading w) (reading w2)))
             (after_time w2) (MongoDBHandler NOTSET c));
    rewrite ?the_logger_after_time, ?Hlg; try reflexivity.
  - unfold level_of_status. destruct (String.eqb st "success"); discriminate.
  - unfold level_of_status. destruct (String.eqb st "success"); discriminate.
Qed.

(** C10.  The guard looks at the shared logger only.  After a first
    decorator has registered its handler, constructing a second one with
    another connection string, database or collection registers nothing:
    the logger keeps the first handler alone.  A call wrapped by the
    second decorator, of a callable without effects of its own, then adds
    its record to the first decorator's collection and leaves the second
    decorator's collection as it was. *)
Theorem second_configuration_is_ignored conn1 db1 coll1 conn2 db2 coll2 w
    func args kwargs o strs :
  lg_handlers (the_logger "MongoDBLogger" w) = [] ->
  (conn1, db1, coll1) <> (conn2, db2, coll2) ->
  let c1 : Collection := (conn1, db1, coll1) in
  let c2 : Collection := (conn2, db2, coll2) in
  let w1 := snd (init conn1 db1 coll1 w) in
  let w2 := snd (init conn2 db2 coll2 w1) in
  let second := mk_decorator conn2 (conn2, db2) c2 "MongoDBLogger" in
  pure_callable func ->
  fst (fn_call func args kwargs (after_time w2)) = o ->
  stringify func args kwargs (result_local o) = Returned strs ->
  handled_message_returns o ->
  next_insert_fails w2 = false ->
  fst (init conn2 db2 coll2 w1) = Returned second /\
  lg_handlers (the_logger "MongoDBLogger" w2) = [MongoDBHandler NOTSET c1] /\
  exists record,
    documents c1 (snd (wrapper second func args kwargs w2))
    = app (documents c1 w2) [record] /\
    documents c2 (snd (wrapper second func args kwargs w2)) = documents c2 w2 /\
    dict_get "function" record = Some (PyStr (fst (fst (fst strs)))).
Proof.
  intros Hnone Hne c1 c2 w1 w2 second Hpure Ho Hstr Hmsg Hup.
  assert (Hlg1 : the_logger "MongoDBLogger" w1
                 = mk_logger DEBUG [MongoDBHandler NOTSET c1]).
  { unfold w1. rewrite the_logger_after_init. unfold registered.
    now rewrite Hnone. }
  assert (Hlg2 : the_logger "MongoDBLogger" w2
                 = mk_logger DEBUG [MongoDBHandler NOTSET c1]).
  { unfold w2. rewrite the_logger_after_init, registered_of_nonempty;
      rewrite Hlg1; [reflexivity | discriminate]. }
  split; [unfold w1; now rewrite (init_run conn2 db2 coll2) |].
  split; [now rewrite Hlg2 |].
  assert (Hcall : fn_call func args kwargs (after_time w2) = (o, after_time w2)).
  { pose proof (Hpure args kwargs (after_time w2)) as Hw.
    destruct (fn_call func args kwargs (after_time w2)) as [o' w'].
    cbn [fst snd] in *. now subst. }
  destruct strs as [[[n a] k] s].
  destruct (wrapper_one_handler second func args kwargs w2 o (after_time w2)
              n a k s c1 Hcall Hstr Hmsg) as (exception & st & Hrun).
  { cbn [logger second]. now rewrite the_logger_after_time. }
  rewrite Hrun. cbn [snd fst].
  eexists. split; [| split].
  - rewrite documents_after_emit_same; [reflexivity | exact Hup].
  - rewrite documents_after_emit_other; [reflexivity |].
    intros E. apply Hne. symmetry. exact E.
  - now rewrite log_entry_other by discriminate.
Qed.

Lemma calculate_payment_pure : pure_callable calculate_payment.
Proof.
  intros args kwargs w. cbn [fn_call calculate_payment].
  destruct (bind_arguments _ _ _ _) as [[| p [| t [| x l]]] | e]; reflexivity.
Qed.

Lemma second_configuration_is_ignored_witness :
  let c1 : Collection := ("mongodb://localhost", "app_logs", "function_traces") in
  let c2 : Collection := ("mongodb://replica", "audit", "calls") in
  let w1 := snd (init "mongodb://localhost" "app_logs" "function_traces"
                   (example_world 0 false)) in
  let w2 := snd (init "mongodb://replica" "audit" "calls" w1) in
  let second := mk_decorator "mongodb://replica" ("mongodb://replica", "audit") c2
                             "MongoDBLogger" in
  let args := [PyInt 1000; PyFloat lit_0_1] in
  fst (init "mongodb://replica" "audit" "calls" w1) = Returned second /\
  lg_handlers (the_logger "MongoDBLogger" w2) = [MongoDBHandler NOTSET c1] /\
  exists record,
    documents c1 (snd (wrapper second calculate_payment args [] w2))
    = app (documents c1 w2) [record] /\
    documents c2 (snd (wrapper second calculate_payment args [] w2))
    = documents c2 w2 /\
    dict_get "function" record = Some (PyStr "calculate_payment").
Proof.
  refine (second_configuration_is_ignored
            "mongodb://localhost" "app_logs" "function_traces"
            "mongodb://replica" "audit" "calls" (example_world 0 false)
            calculate_payment [PyInt 1000; PyFloat lit_0_1] []
            (Returned (PyFloat (Double.of_Z 1100)))
            ("calculate_payment", "(1000, 0.1)", "{}", "1100.0")
            eq_refl _ calculate_payment_pure eq_refl eq_refl
            (handled_message_returns_value (PyFloat (Double.of_Z 1100))) eq_refl).
  discriminate.
Defined.

(** ** The duration *)

(** C9, as amended.  The record's [duration_ms] is
    [round((t1 - t0) * 1000, 2)] in double arithmetic, where [t0] is the
    reading of [time()] on entry and [t1] the reading at the start of the
    [finally] block: the difference of the two readings in milliseconds,
    rounded to the nearest hundredth.  It is not negative when the clock
    has not gone back between the two readings.  Being rounded, it can be
    below the time that elapsed. *)
Theorem duration_is_rounded_clock_difference self func args kwargs w o w2 n a k s :
  fn_call func args kwargs (after_time w) = (o, w2) ->
  stringify func args kwargs (result_local o) = Returned (n, a, k, s) ->
  let t0 := reading w in
  let t1 := reading w2 in
  let ms :=
    Double.round_ndigits (Double.mul (Double.sub t1 t0) (Double.of_Z 1000)) 2 in
  (exists exception st pending,
     wrapper self func args kwargs w =
     and_then
       (Logger_log (logger self) (level_of_status st)
          (PyDict (telemetry n a k s exception st ms)))
       pending (after_time w2)
     /\ dict_get "duration_ms" (telemetry n a k s exception st ms)
        = Some (PyFloat ms))
  /\ (clock_reading t0 -> clock_reading t1 -> Double.leb t0 t1 = true ->
      Double.nonneg ms = true).
Proof.
  intros Hcall Hstr t0 t1 ms. split.
  - rewrite (wrapper_run self func args kwargs w o w2 Hcall).
    pose proof (try_leaves_result o) as Hres.
    destruct (try_leaves o) as [[[res exception] st] pending]. subst res.
    rewrite Hstr. exists exception, st, pending. split; reflexivity.
  - apply elapsed_ms_nonneg.
Qed.

Lemma duration_is_rounded_clock_difference_witness :
  let w := example_started false in
  let ms :=
    Double.round_ndigits
      (Double.mul (Double.sub (reading (after_time w)) (reading w))
                  (Double.of_Z 1000)) 2 in
  (exists exception st pending,
     wrapper example_decorator calculate_payment [PyInt 1000; PyFloat lit_0_1] [] w =
     and_then
       (Logger_log (logger example_decorator) (level_of_status st)
          (PyDict (telemetry "calculate_payment" "(1000, 0.1)" "{}" "1100.0"
                     exception st ms)))
       pending (after_time (after_time w))
     /\ dict_get "duration_ms"
          (telemetry "calculate_payment" "(1000, 0.1)" "{}" "1100.0" exception st ms)
        = Some (PyFloat ms))
  /\ Double.nonneg ms = true.
Proof.
  destruct (duration_is_rounded_clock_difference example_decorator calculate_payment
              [PyInt 1000; PyFloat lit_0_1] [] (example_started false)
              (Returned (PyFloat (Double.of_Z 1100)))
              (after_time (example_started false))
              "calculate_payment" "(1000, 0.1)" "{}" "1100.0" eq_refl eq_refl)
    as [Hrecord Hsign].
  split; [exact Hrecord |].
  apply Hsign; [split; reflexivity | split; reflexivity | reflexivity].
Defined.

(** C9 as stated fails, on two counts.  When the clock is set back during
    the call (readings 100.0 s then 99.0 s) the duration stored is
    -1000.0, which is negative.  And a call during which the clock
    advances by 10.004 ms (readings 0.0 s then 0.010004 s) is stored with
    the duration 10.0, below the 10.004 ms it lasted. *)
Lemma duration_counterexample :
  (exists d,
     documents (trace_collection "mongodb://localhost")
       (snd (run_1 "mongodb://localhost"
               (clock_world [Double.of_Z 100; Double.of_Z 99]))) = [d]
     /\ dict_get "duration_ms" d = Some (PyFloat (Double.of_Z (-1000)))
     /\ Double.nonneg (Double.of_Z (-1000)) = false)
  /\
  (let t0 := S754_zero false in
   let t1 := Double.of_ratio false 10004 1000000 in
   let lasted := Double.mul (Double.sub t1 t0) (Double.of_Z 1000) in
   exists d,
     documents (trace_collection "mongodb://localhost")
       (snd (run_1 "mongodb://localhost" (clock_world [t0; t1]))) = [d]
     /\ dict_get "duration_ms" d = Some (PyFloat (Double.of_Z 10))
     /\ Double.leb (Double.of_ratio false 10004 1000) lasted = true
     /\ Double.ltb (Double.of_Z 10) (Double.of_ratio false 10004 1000) = true).
Proof.
  split.
  - eexists. split; [vm_compute; reflexivity |]. split; vm_compute; reflexivity.
  - cbv zeta. eexists. split; [vm_compute; reflexivity |].
    repeat split; vm_compute; reflexivity.
Qed.

(** ** [calculate_payment] *)

(** X1.  On integers [calculate_payment] is exact: a negative price raises
    [ValueError], and any other price gives the integer [price * (1 +
    tax_rate)], with no conversion to float and no other error, whatever the
    size of the numbers. *)
Theorem calculate_payment_on_integers price tax_rate w :
  fn_call calculate_payment [PyInt price; PyInt tax_rate] [] w =
  (if price <? 0 then Raised (ValueError negative_price)
   else Returned (PyInt (price * (1 + tax_rate))), w).
Proof.
  cbn [fn_call calculate_payment bind_arguments]. cbn.
  unfold calculate_payment_body, lt_zero. cbn [as_number].
  destruct (price <? 0); reflexivity.
Qed.

Lemma number_op_not_ValueError sym fz ff a b msg :
  number_op sym fz ff a b <> Raised (ValueError msg).
Proof.
  unfold number_op.
  destruct (as_number b) as [n |]; [| discriminate].
  destruct a as [x | x], n as [y | y]; cbn [arith]; try discriminate.
  - unfold to_float. destruct (Double.of_Z x); discriminate.
  - unfold to_float. destruct (Double.of_Z y); discriminate.
Qed.

(** X2.  Called with two positional arguments of built-in types (numbers,
    strings, [None], tuples, dictionaries, dates), [calculate_payment]
    raises its [ValueError] exactly when the price is a number below zero:
    the tax rate is not looked at before that test, so no value of it
    changes this, and no other failure of the function on such arguments
    is a [ValueError]. *)
Theorem calculate_payment_ValueError_iff price tax_rate w :
  builtin_typed price = true ->
  builtin_typed tax_rate = true ->
  fst (fn_call calculate_payment [price; tax_rate] [] w)
  = Raised (ValueError negative_price)
  <-> lt_zero price = Returned true.
Proof.
  intros _ _.
  change (fst (fn_call calculate_payment [price; tax_rate] [] w))
    with (calculate_payment_body price tax_rate).
  unfold calculate_payment_body.
  destruct (lt_zero price) as [[|] | e] eqn:Hlt.
  - split; reflexivity.
  - split; [| discriminate].
    intros H. exfalso.
    destruct (number_op "+" Z.add Double.add (NInt 1) tax_rate) as [t | e] eqn:Ht.
    + destruct (as_number price) as [p |]; [| discriminate].
      exact (number_op_not_ValueError _ _ _ _ _ _ H).
    + rewrite <- Ht in H. exact (number_op_not_ValueError _ _ _ _ _ _ H).
  - split; [| discriminate].
    intros [= ->]. unfold lt_zero in Hlt.
    destruct (as_number price) as [[z | x] |]; discriminate.
Qed.

Lemma calculate_payment_ValueError_iff_witness :
  fst (fn_call calculate_payment [PyInt (-100); PyNone] []
         (example_world 0 false))
  = Raised (ValueError negative_price).
Proof.
  apply (proj2 (calculate_payment_ValueError_iff (PyInt (-100)) PyNone
                  (example_world 0 false) eq_refl eq_refl)).
  reflexivity.
Defined.

(** ** The document of a wrapped call *)

Lemma log_entry_of_telemetry n a k s exception st ms levelname w :
  log_entry_of (telemetry n a k s exception st ms) levelname w
  = stored_record n a k s exception st ms (now_reading w) levelname.
Proof. reflexivity. Qed.

Lemma documents_after_time c w : documents c (after_time w) = documents c w.
Proof. reflexivity. Qed.


Lemma now_reading_after_time w : now_reading (after_time w) = now_reading w.
Proof. reflexivity. Qed.



(** ** Callables without a name, and a logger set above [INFO] *)

(** X4.  A callable that has no [__name__] (an instance of a class with
    [__call__], a [functools.partial]) cannot be traced: the callable runs,
    and then every wrapped call raises [AttributeError] from the [finally]
    block, whatever the callable returned or raised, and nothing goes to
    the logger.  The wrapper itself keeps the name ["wrapper"]. *)
Theorem nameless_callable_always_raises self func args kwargs w o w2 :
  fn_name func = None ->
  fn_call func args kwargs (after_time w) = (o, w2) ->
  wrapper self func args kwargs w
  = (Raised (AttributeError (no_name_message (fn_type func))), after_time w2)
  /\ fn_name (call self func) = Some "wrapper".
Proof.
  intros Hname Hcall. split.
  - rewrite (wrapper_run self func args kwargs w o w2 Hcall).
    destruct (try_leaves o) as [[[res exception] st] pending].
    unfold stringify, get_name. rewrite Hname. reflexivity.
  - cbn [call fn_name]. rewrite Hname. reflexivity.
Qed.

Lemma nameless_callable_always_raises_witness :
  let func := mk_callable "functools.partial" None (fun _ _ => ret (PyInt 5)) in
  let w := example_started false in
  wrapper example_decorator func [] [] w
  = (Raised (AttributeError (no_name_message "functools.partial")),
     after_time (after_time w))
  /\ fn_name (call example_decorator func) = Some "wrapper".
Proof.
  exact (nameless_callable_always_raises example_decorator
           (mk_callable "functools.partial" None (fun _ _ => ret (PyInt 5)))
           [] [] (example_started false) (Returned (PyInt 5))
           (after_time (example_started false)) eq_refl eq_refl).
Defined.



(** ** The handler on other messages, and what it leaves alone *)

(** What [emit] does on any record. *)
Lemma emit_runs self record w :
  match payload_mapping (rec_msg record) with
  | Returned entry =>
      emit self record w
      = (Returned tt, after_emit (h_collection self) entry (rec_levelname record) w)
  | Raised e =>
      emit self record w =
      if exc_isinstance e "Exception" then (Returned tt, after_report w)
      else (Raised e, w)
  end.
Proof.
  destruct record as [name levelno levelname msg]. cbn [rec_msg rec_levelname].
  unfold payload_mapping.
  destruct msg.
  all: cycle 6.
  { now apply emit_entry. }
  all: match goal with
       | |- context [py_str ?m] => destruct (py_str m) as [t | e0] eqn:Hs
       end;
    [ apply emit_entry; exists t; split; [exact Hs | reflexivity]
    | unfold emit, try_except, bind, of_outcome; cbn [rec_msg]; rewrite Hs;
      destruct (exc_isinstance e0 "Exception"); reflexivity ].
Qed.





Lemma after_report_frame w :
  loggers (after_report w) = loggers w /\
  time_reads (after_report w) = time_reads w /\
  collections (after_report w) = collections w /\
  insert_calls (after_report w) = insert_calls w.
Proof. repeat split. Qed.

Lemma time_reads_after_emit c entry levelname w :
  time_reads (after_emit c entry levelname w) = time_reads w.
Proof. unfold after_emit. destruct (next_insert_fails w); reflexivity. Qed.

(** X7.  Whatever the record, [emit] makes at most one call of
    [insert_one], adds at most one document to its own collection and
    removes none, and leaves alone the documents of every other collection,
    the logger registry and the clock. *)
Theorem emit_footprint self record w c :
  c <> h_collection self ->
  let w' := snd (emit self record w) in
  documents c w' = documents c w /\
  (documents (h_collection self) w' = documents (h_collection self) w \/
   exists d, documents (h_collection self) w'
             = app (documents (h_collection self) w) [d]) /\
  (insert_calls w' = insert_calls w \/ insert_calls w' = S (insert_calls w)) /\
  loggers w' = loggers w /\
  time_reads w' = time_reads w.
Proof.
  intros Hc w'. subst w'.
  pose proof (emit_runs self record w) as Hrun.
  destruct (payload_mapping (rec_msg record)) as [entry | e].
  - rewrite Hrun. cbn [snd].
    split; [now apply documents_after_emit_other |].
    split.
    { rewrite documents_after_emit. rewrite decide_True by reflexivity.
      destruct (next_insert_fails w); [left; reflexivity | right; eauto]. }
    split; [right; apply insert_calls_after_emit |].
    split; [apply loggers_after_emit | apply time_reads_after_emit].
  - rewrite Hrun. destruct (exc_isinstance e "Exception"); cbn [snd];
      repeat split; auto.
Qed.

Lemma emit_footprint_witness :
  let self := MongoDBHandler NOTSET (trace_collection "mongodb://localhost") in
  let record := mk_record "MongoDBLogger" INFO "INFO" (PyInt 7) in
  let w := example_started false in
  let c : Collection := ("mongodb://localhost", "app_logs", "other") in
  let w' := snd (emit self record w) in
  documents c w' = documents c w /\
  (documents (h_collection self) w' = documents (h_collection self) w \/
   exists d, documents (h_collection self) w'
             = app (documents (h_collection self) w) [d]) /\
  (insert_calls w' = insert_calls w \/ insert_calls w' = S (insert_calls w)) /\
  loggers w' = loggers w /\
  time_reads w' = time_reads w.
Proof.
  refine (emit_footprint
            (MongoDBHandler NOTSET (trace_collection "mongodb://localhost"))
            (mk_record "MongoDBLogger" INFO "INFO" (PyInt 7))
            (example_started false)
            ("mongodb://localhost", "app_logs", "other") _).
  discriminate.
Defined.

(** ** The constructor *)




(** ** Decorating twice *)

Lemma the_logger_after_emit name c entry levelname w :
  the_logger name (after_emit c entry levelname w) = the_logger name w.
Proof. unfold the_logger. now rewrite loggers_after_emit. Qed.

Lemma insert_fault_after_emit c entry levelname w :
  insert_fault (after_emit c entry levelname w) = insert_fault w.
Proof. unfold after_emit. destruct (next_insert_fails w); reflexivity. Qed.

Lemma status_of_cases o : status_of o = "success" \/ status_of o = "error".
Proof.
  unfold status_of. destruct o as [r | e]; cbn [try_leaves]; [now left |].
  destruct (exc_isinstance e "Exception"); [destruct (exc_str e) |]; cbn; auto.
Qed.

(** The run of a wrapped call through the one handler of the constructor,
    with the record spelled out. *)
Lemma wrapper_stores self func args kwargs w o w2 n a k s c :
  fn_call func args kwargs (after_time w) = (o, w2) ->
  stringify func args kwargs (result_local o) = Returned (n, a, k, s) ->
  handled_message_returns o ->
  the_logger (logger self) w2 = mk_logger DEBUG [MongoDBHandler NOTSET c] ->
  wrapper self func args kwargs w =
  (o, after_emit c
        (telemetry n a k s (exception_of o) (status_of o)
           (elapsed_ms (reading w) (reading w2)))
        (levelname_of o) (after_time w2)).
Proof.
  intros Hcall Hstr Hmsg Hlg.
  rewrite (wrapper_run self func args kwargs w o w2 Hcall).
  pose proof (stringify_result_local func args kwargs o _ Hstr) as Hs.
  pose proof (try_leaves_pending o Hmsg) as Hp.
  pose proof (status_of_cases o) as Hst.
  unfold levelname_of, exception_of, status_of in *.
  destruct (try_leaves o) as [[[res exception] st] pending].
  cbn [fst snd] in *. rewrite Hs. subst pending. unfold and_then.
  rewrite (Logger_log_one (logger self) (level_of_status st) _
             (telemetry n a k s exception st (elapsed_ms (reading w) (reading w2)))
             (after_time w2) (MongoDBHandler NOTSET c));
    rewrite ?the_logger_after_time, ?Hlg; try reflexivity;
    destruct Hst as [-> | ->]; discriminate.
Qed.




(** ** The example program *)

Lemma documents_after_emit_fresh c entry levelname w :
  documents c (after_emit c entry levelname w)
  = app (documents c w)
        (kept_if_stored (insert_fault w (insert_calls w))
                        (log_entry_of entry levelname w)).
Proof.
  rewrite documents_after_emit, decide_True by reflexivity.
  unfold next_insert_fails, kept_if_stored.
  destruct (insert_fault w (insert_calls w)); [now rewrite app_nil_r | reflexivity].
Qed.

Lemma stderr_after_emit_report c entry levelname w :
  stderr (after_emit c entry levelname w)
  = app (stderr w) (report_if_failed (insert_fault w (insert_calls w))).
Proof.
  rewrite stderr_after_emit. unfold next_insert_fails, report_if_failed.
  destruct (insert_fault w (insert_calls w)); [reflexivity | now rewrite app_nil_r].
Qed.

(** X10.  The [__main__] block, in a process that has just started and with
    the connection string the environment gives, runs to its end whatever
    the clocks read and whether the database takes the writes or not: it
    prints its three lines, the second being
    [Run 1: 1100.0] and the third the line of the [except ValueError]
    branch; it calls [insert_one] twice; the collection holds, in order,
    the success record of the first call and the error record of the
    second, each if its write succeeded; and each failed write leaves one
    report on [sys.stderr]. *)
Theorem main_runs_to_its_end conn ts ns faults :
  let run := main conn ([], fresh_world ts ns faults) in
  let w := snd (snd run) in
  fst run = Returned tt /\
  fst (snd run) =
    ["MongoDBLogDecorator 데코레이터 테스트 시작."; "Run 1: 1100.0";
     "Run 2: 에러가 정상적으로 로깅되었습니다."] /\
  insert_calls w = 2%nat /\
  documents (trace_collection conn) w =
    app (kept_if_stored (faults 0%nat)
           (stored_record "calculate_payment" "(1000, 0.1)" "{}" "1100.0"
              None "success" (elapsed_ms (ts 0%nat) (ts 1%nat)) (ns 0%nat) "INFO"))
        (kept_if_stored (faults 1%nat)
           (stored_record "calculate_payment" "(-100, 0.1)" "{}" "None"
              (Some negative_price) "error" (elapsed_ms (ts 2%nat) (ts 3%nat))
              (ns 1%nat) "ERROR")) /\
  stderr w = app (report_if_failed (faults 0%nat)) (report_if_failed (faults 1%nat)).
Proof.
  intros run w. subst w run.
  set (w0 := fresh_world ts ns faults).
  set (c := trace_collection conn).
  set (d := mk_decorator conn (conn, "app_logs") c "MongoDBLogger").
  set (w1 := with_loggers
               (<["MongoDBLogger" := mk_logger DEBUG (registered c w0)]> (loggers w0)) w0).
  assert (Hlg : the_logger "MongoDBLogger" w1
                = mk_logger DEBUG [MongoDBHandler NOTSET c]).
  { unfold w1. now rewrite the_logger_inserted. }
  pose proof (wrapper_stores d calculate_payment [PyInt 1000; PyFloat lit_0_1] [] w1
                (Returned (PyFloat (Double.of_Z 1100))) (after_time w1)
                "calculate_payment" "(1000, 0.1)" "{}" "1100.0" c
                eq_refl eq_refl (handled_message_returns_value _) Hlg) as Hrun1.
  set (W1 := after_emit c _ _ (after_time (after_time w1))) in Hrun1.
  assert (Hlg1 : the_logger "MongoDBLogger" (after_time W1)
                 = mk_logger DEBUG [MongoDBHandler NOTSET c]).
  { rewrite the_logger_after_time. unfold W1. now rewrite the_logger_after_emit. }
  pose proof (wrapper_stores d calculate_payment [PyInt (-100); PyFloat lit_0_1] [] W1
                (Raised (ValueError negative_price)) (after_time W1)
                "calculate_payment" "(-100, 0.1)" "{}" "None" c
                eq_refl eq_refl (handled_message_returns_builtin _ _) Hlg1) as Hrun2.
  set (W2 := after_emit c _ _ (after_time (after_time W1))) in Hrun2.
  assert (Hmain : main conn ([], w0) =
                  (Returned tt,
                   (["MongoDBLogDecorator 데코레이터 테스트 시작."; "Run 1: 1100.0";
                     "Run 2: 에러가 정상적으로 로깅되었습니다."], W2))).
  { unfold main. unfold bind at 1. unfold lift_out at 1. cbn [snd fst].
    rewrite init_run. fold c d w1.
    unfold bind at 1. unfold print at 1, modify. cbn [fst snd].
    unfold bind at 1. unfold lift_out at 1. cbn [snd fst call fn_call].
    change (wrapper _ calculate_payment [PyInt 1000; PyFloat lit_0_1] [] _)
      with (wrapper d calculate_payment [PyInt 1000; PyFloat lit_0_1] [] w1).
    rewrite Hrun1.
    unfold bind at 1. unfold of_outcome at 1.
    change (py_str (PyFloat (Double.of_Z 1100))) with (@Returned pyexn string "1100.0").
    unfold bind at 1. unfold print at 1, modify. cbn [fst snd].
    unfold try_except, bind, lift_out. cbn [fst snd call fn_call].
    change (wrapper _ calculate_payment [PyInt (-100); PyFloat lit_0_1] [] _)
      with (wrapper d calculate_payment [PyInt (-100); PyFloat lit_0_1] [] W1).
    rewrite Hrun2. reflexivity. }
  rewrite Hmain. cbn [fst snd].
  split; [reflexivity |]. split; [reflexivity |].
  split.
  { unfold W2. rewrite insert_calls_after_emit. unfold W1.
    cbn. rewrite insert_calls_after_emit. reflexivity. }
  split.
  - unfold W2. rewrite documents_after_emit_fresh, documents_after_time,
      documents_after_time.
    unfold W1 at 1. rewrite documents_after_emit_fresh.
    assert (Hc1 : insert_calls (after_time (after_time W1)) = 1%nat).
    { unfold W1. cbn. rewrite insert_calls_after_emit. reflexivity. }
    assert (Hf1 : insert_fault (after_time (after_time W1)) = faults).
    { unfold W1. cbn. rewrite insert_fault_after_emit. reflexivity. }
    rewrite Hc1, Hf1, !log_entry_of_telemetry.
    assert (Hn1 : now_reading (after_time (after_time W1)) = ns 1%nat).
    { unfold W1, after_emit. destruct (next_insert_fails _); reflexivity. }
    assert (Ht : reading W1 = ts 2%nat /\ reading (after_time W1) = ts 3%nat).
    { unfold W1, after_emit. destruct (next_insert_fails _); split; reflexivity. }
    destruct Ht as [Ht2 Ht3]. rewrite Hn1, Ht2, Ht3. reflexivity.
  - unfold W2. rewrite stderr_after_emit_report.
    assert (Hc1 : insert_calls (after_time (after_time W1)) = 1%nat).
    { unfold W1. cbn. rewrite insert_calls_after_emit. reflexivity. }
    assert (Hf1 : insert_fault (after_time (after_time W1)) = faults).
    { unfold W1. cbn. rewrite insert_fault_after_emit. reflexivity. }
    rewrite Hc1, Hf1. f_equal.
    change (stderr (after_time (after_time W1))) with (stderr W1).
    unfold W1. rewrite stderr_after_emit_report. reflexivity.
Qed.

(** ** Exceptions outside [Exception] *)


